(** * Spreadsheet-backed REST routes: a shallow embedding and its properties

    The repository is a set of Express route modules that proxy requests onto
    Google Sheets (a row store) and Google Drive (a blob store):

    - [src/routes/departments.js]          -> [Module Departments]
    - employees routes  ([part_001])        -> [Module Employees]
    - students routes   ([part_002], 2nd)   -> [Module Students]
    - generator log     ([part_002], 1st)   -> [Module GeneratorLog]
    - file movement log ([part_003])        -> [Module FileLog]
    - bus log           ([part_000])        -> [Module BusLog]

    Every handler is an [async] function with a [try]/[catch] around remote
    calls.  It is embedded as a computation in a state-and-exception monad
    over a [world] that holds the spreadsheets, the Drive folder, a plan of
    the remote faults still to come and the trace of remote calls issued. *)

From Stdlib Require Import ZArith.
From stdpp Require Import base gmap strings list fin_maps pretty.

(** ** JavaScript values *)

(** The values a request field or a cell can take.  JSON numbers are kept to
    the integers: the handlers only test them for truthiness and interpolate
    them into strings. *)
Inductive value : Type :=
| Undefined
| Null
| Bool (b : bool)
| Num (n : Z)
| Str (s : string).

#[global] Instance value_eq_dec : EqDecision value.
Proof. solve_decision. Defined.

(** [ToBoolean]: what [!x] and [x || y] test. *)
Definition truthy (v : value) : bool :=
  match v with
  | Undefined | Null => false
  | Bool b => b
  | Num n => negb (n =? 0)%Z
  | Str s => match s with EmptyString => false | String _ _ => true end
  end.

(** [a || b] *)
Definition js_or (a b : value) : value := if truthy a then a else b.
Notation "a '|||' b" := (js_or a b) (at level 50, left associativity).

(** [a === b] on primitives *)
Definition strict_eq (a b : value) : bool := bool_decide (a = b).

(** [`${v}`] *)
Definition js_string (v : value) : string :=
  match v with
  | Undefined => "undefined"
  | Null => "null"
  | Bool b => if b then "true" else "false"
  | Num n => pretty n
  | Str s => s
  end.

(** [row[j]] on an array of strings: out of range reads give [undefined]. *)
Definition cell (row : list string) (j : nat) : value :=
  match row !! j with
  | Some s => Str s
  | None => Undefined
  end.

(** [Array.prototype.forEach] with a callback [(x, index) => ...] that mutates
    a captured object of type [O]. *)
Fixpoint forEach_from {A O : Type} (f : A → nat → O → O)
    (l : list A) (index : nat) (s : O) : O :=
  match l with
  | [] => s
  | x :: l' => forEach_from f l' (S index) (f x index s)
  end.

Definition forEach {A O : Type} (l : list A) (f : A → nat → O → O) (s : O) : O :=
  forEach_from f l 0 s.

(** [o[k] = v] on a plain object.  Assigning a primitive to ["__proto__"] is
    silently ignored by the inherited setter, so no own property appears. *)
Definition set_prop (o : gmap string value) (k : string) (v : value)
    : gmap string value :=
  if decide (k = "__proto__") then o else <[k := v]> o.

(** [o.k]: a missing property reads as [undefined]. *)
Definition get_prop (o : gmap string value) (k : string) : value :=
  default Undefined (o !! k).

(** [headers.indexOf(x)] *)
Fixpoint indexOf_from (l : list string) (x : string) (i : Z) : Z :=
  match l with
  | [] => (-1)%Z
  | y :: l' => if decide (y = x) then i else indexOf_from l' x (i + 1)%Z
  end.

Definition indexOf (l : list string) (x : string) : Z := indexOf_from l x 0%Z.

(** ** The backing services *)

(** Google Sheets and Google Drive are outside the repository.  What follows
    is the part of their documented behaviour that the handlers rely on:
    [values.get] leaves out trailing empty cells and rows, [values.append]
    writes under the last row that holds data, [values.update] overwrites a
    row and skips [null] values, a missing tab is an error.  Any call may
    also fail outright (network, auth, quota), which the [faults] of a world
    decide. *)

(** A tab of a spreadsheet is a grid of cells holding their formatted text;
    a missing cell and an empty cell are the same thing to the service. *)
Abbreviation grid := (list (list string)).

(** Remove the trailing elements that satisfy [p]: the Sheets API leaves out
    trailing empty cells of a row and trailing empty rows of a range. *)
Fixpoint rstrip {A : Type} (p : A → bool) (l : list A) : list A :=
  match l with
  | [] => []
  | x :: l' =>
      match rstrip p l' with
      | [] => if p x then [] else [x]
      | t => x :: t
      end
  end.

Definition is_empty_cell (s : string) : bool :=
  match s with EmptyString => true | String _ _ => false end.

Definition is_blank_row (r : list string) : bool := forallb is_empty_cell r.

(** [response.data.values] of [spreadsheets.values.get] over the first [w]
    columns of the rows [g]: [undefined] when every cell is empty. *)
Definition values_of (w : nat) (g : grid) : option (list (list string)) :=
  match rstrip is_blank_row (map (λ r, rstrip is_empty_cell (take w r)) g) with
  | [] => None
  | rows => Some rows
  end.

(** How a written value shows up in a cell.  [null] (what [undefined] becomes
    in the JSON request) leaves the cell as it is.  The re-interpretation of
    text under [valueInputOption: 'USER_ENTERED'] is not modelled here: a
    cell shows the text that was written.  What the handlers read back after
    a write is stated further down for a service that may take a text for
    something else, see [served]. *)
Definition render (v : value) : option string :=
  match v with
  | Undefined | Null => None
  | Bool b => Some (if b then "TRUE" else "FALSE")
  | Num n => Some (pretty n)
  | Str s => Some s
  end.

Fixpoint write_cells (vals : list value) (old : list string) : list string :=
  match vals with
  | [] => old
  | v :: vs =>
      default (default "" (head old)) (render v) :: write_cells vs (tail old)
  end.

(** Overwrite row [i] (0-based), growing the grid with empty rows if needed. *)
Definition write_row (i : nat) (vals : list value) (g : grid) : grid :=
  if decide (i < length g) then alter (write_cells vals) i g
  else g ++ replicate (i - length g) [] ++ [write_cells vals []].

(** The ranges the handlers use, in A1 notation: [Tab!A:G] is
    [Columns "Tab" 7] and [Tab!A5:G5] is [RowOf "Tab" 5 7]. *)
Inductive a1range : Type :=
| Columns (tab : string) (width : nat)
| RowOf (tab : string) (row : Z) (width : nat).

Inductive buffer : Type :=
| Bytes (content : string)        (* an uploaded photo *)
| QrPng (text : string).          (* [qrcode.toBuffer(text)] *)

(** [req.file] as multer's memory storage provides it. *)
Record file_object : Type := FileObject {
  file_buffer : buffer;
  originalname : string;
  mimetype : string;
}.

Record drive_file : Type := DriveFile {
  df_id : string;
  df_name : string;
  df_mime : string;
  df_parent : string;
  df_body : buffer;
  df_public : bool;
}.

(** [{ id, webViewLink }] *)
Record drive_data : Type := DriveData {
  data_id : string;
  webViewLink : string;
}.

Inductive remote_call : Type :=
| DriveFilesCreate (parent name mime : string)
| DrivePermissionsCreate (fileId : string)
| SheetsValuesGet (spreadsheetId : string) (range : a1range)
| SheetsValuesAppend (spreadsheetId : string) (range : a1range) (row : list value)
| SheetsValuesUpdate (spreadsheetId : string) (range : a1range) (row : list value).

Record world : Type := World {
  sheetsDb : gmap (string * string) grid;  (* (spreadsheetId, tab) ↦ cells *)
  driveDb : list drive_file;
  faults : list bool;        (* [true]: the next remote call is rejected *)
  trace : list remote_call;  (* remote calls issued so far, oldest first *)
}.

(** ** The monad of handlers *)

Inductive outcome (A : Type) : Type :=
| Ok (a : A)
| Thrown (err : string).
Arguments Ok {A} a.
Arguments Thrown {A} err.

Definition M (A : Type) : Type := world → outcome A * world.

Definition ret {A : Type} (a : A) : M A := λ w, (Ok a, w).

Definition throw {A : Type} (err : string) : M A := λ w, (Thrown err, w).

Definition bind {A B : Type} (m : M A) (k : A → M B) : M B := λ w,
  match m w with
  | (Ok a, w') => k a w'
  | (Thrown e, w') => (Thrown e, w')
  end.

Notation "x <- c1 ;; c2" := (bind c1 (λ x, c2))
  (at level 100, c1 at next level, right associativity).
Notation "c1 ;;; c2" := (bind c1 (λ _, c2))
  (at level 100, right associativity).

(** [try { body } catch (err) { handler }] *)
Definition try_catch {A : Type} (body : M A) (handler : string → M A) : M A :=
  λ w,
  match body w with
  | (Ok a, w') => (Ok a, w')
  | (Thrown e, w') => handler e w'
  end.

(** A remote call is recorded in the trace and uses up one entry of the
    fault plan. *)
Definition tick (c : remote_call) (w : world) : world :=
  World (sheetsDb w) (driveDb w) (tail (faults w)) (trace w ++ [c]).

(** Issue a remote call: it is rejected if the fault plan says so (the
    [await] throws), otherwise the service performs [op]. *)
Definition remote {A : Type} (c : remote_call) (op : M A) : M A := λ w,
  match faults w with
  | true :: _ => (Thrown "remote call failed", tick c w)
  | _ => op (tick c w)
  end.

Definition with_sheets (db : gmap (string * string) grid) (w : world) : world :=
  World db (driveDb w) (faults w) (trace w).

Definition with_drive (d : list drive_file) (w : world) : world :=
  World (sheetsDb w) d (faults w) (trace w).

Definition range_tab (r : a1range) : string :=
  match r with Columns tab _ | RowOf tab _ _ => tab end.

(** [sheets.spreadsheets.values.get({ spreadsheetId, range })], giving
    [response.data.values]. *)
Definition values_get (ssid : string) (range : a1range)
    : M (option (list (list string))) :=
  remote (SheetsValuesGet ssid range) (λ w,
    match sheetsDb w !! (ssid, range_tab range) with
    | None => (Thrown "Unable to parse range", w)
    | Some g =>
        match range with
        | Columns _ width => (Ok (values_of width g), w)
        | RowOf _ row width =>
            if decide (1 ≤ row)%Z
            then (Ok (values_of width (take 1 (drop (Z.to_nat row - 1) g))), w)
            else (Thrown "Unable to parse range", w)
        end
    end).

(** [sheets.spreadsheets.values.append(...)] with one row of values: the row
    lands under the last row that holds data. *)
Definition values_append (ssid : string) (range : a1range) (row : list value)
    : M unit :=
  remote (SheetsValuesAppend ssid range row) (λ w,
    match sheetsDb w !! (ssid, range_tab range) with
    | None => (Thrown "Unable to parse range", w)
    | Some g =>
        let g' := rstrip is_blank_row g ++ [write_cells row []] in
        (Ok (), with_sheets (<[(ssid, range_tab range) := g']> (sheetsDb w)) w)
    end).

(** [sheets.spreadsheets.values.update(...)] of a one-row range with one row
    of values. *)
Definition values_update (ssid : string) (range : a1range) (row : list value)
    : M unit :=
  remote (SheetsValuesUpdate ssid range row) (λ w,
    match sheetsDb w !! (ssid, range_tab range), range with
    | Some g, RowOf _ r _ =>
        if decide (1 ≤ r)%Z
        then (Ok (), with_sheets
                (<[(ssid, range_tab range) := write_row (Z.to_nat r - 1) row g]>
                   (sheetsDb w)) w)
        else (Thrown "Unable to parse range", w)
    | _, _ => (Thrown "Unable to parse range", w)
    end).

(** [drive.files.create(...)]: the service picks the id of the new object. *)
Definition drive_files_create (parent : string) (f : file_object) : M drive_data :=
  remote (DriveFilesCreate parent (originalname f) (mimetype f)) (λ w,
    let fid := "drive-" +:+ pretty (length (driveDb w)) in
    let obj := DriveFile fid (originalname f) (mimetype f) parent (file_buffer f) false in
    (Ok (DriveData fid ("https://drive.google.com/file/d/" +:+ fid +:+ "/view")),
     with_drive (driveDb w ++ [obj]) w)).

(** [drive.permissions.create({ fileId, requestBody: { role: 'reader',
    type: 'anyone' } })] *)
Definition drive_permissions_create (fileId : string) : M unit :=
  remote (DrivePermissionsCreate fileId) (λ w,
    let publish (o : drive_file) :=
      if decide (df_id o = fileId)
      then DriveFile (df_id o) (df_name o) (df_mime o) (df_parent o) (df_body o) true
      else o in
    (Ok (), with_drive (map publish (driveDb w)) w)).

(** ** Requests and responses *)

(** [res.status(s).json({ msg, data })] or [res.status(s).send(text)] *)
Inductive body (D : Type) : Type :=
| Json (msg : string) (data : option D)
| Text (s : string).
Arguments Json {D} msg data.
Arguments Text {D} s.

Record response (D : Type) : Type := Response {
  status : nat;
  payload : body D;
}.
Arguments Response {D} status payload.
Arguments status {D} r.
Arguments payload {D} r.

(** What a handler reads from its surroundings: [new Date().toISOString()]
    and [uuidv4()]; each is read at most once per request. *)
Record env : Type := Env {
  isoNow : string;
  uuid : string;
}.

(** The [catch] block every handler ends with. *)
Definition server_error {D : Type} (err : string) : M (response D) :=
  ret (Response 500 (Text "Server Error")).

(** What [res.json] is given as [data]: one object, an array of objects, or
    the [{ details, history }] pair of the status route. *)
Inductive json_data : Type :=
| Obj (o : gmap string value)
| Objs (l : list (gmap string value))
| Details (details : gmap string value) (history : list (gmap string value)).

Abbreviation reply := (response json_data).

(** The loop of [findRowIndexById], which the three entity modules repeat
    word for word: [for (let i = 0; i < rows.length; i++)
    if (rows[i][0] === id) return i + 1;] and [return -1] after it. *)
Fixpoint scan_column_A (rows : list (list string)) (id : string) (i : Z) : Z :=
  match rows with
  | [] => (-1)%Z
  | row :: rest =>
      if strict_eq (cell row 0) (Str id) then (i + 1)%Z
      else scan_column_A rest id (i + 1)%Z
  end.

(** [response.data.values[0]]: a [TypeError] when [values] is missing. *)
Definition values_0 (values : option (list (list string))) : M (list string) :=
  match values with
  | Some (row :: _) => ret row
  | _ => throw "TypeError"
  end.

(** [!rows || rows.length <= 1] *)
Definition no_data_rows (rows : option (list (list string))) : bool :=
  match rows with
  | None => true
  | Some rows => bool_decide (length rows ≤ 1)
  end.

(** ** src/routes/departments.js *)
Module Departments.

Definition SPREADSHEET_ID : string :=
  "16P-msveFT6sAav0wAPTU_wZ2tLiQiThgz0Vutpebo8c".

Definition findRowIndexById (sheetName id : string) : M Z :=
  rows <- values_get SPREADSHEET_ID (Columns sheetName 1) ;;
  match rows with
  | Some rows => ret (scan_column_A rows id 0)
  | None => ret (-1)%Z
  end.

(** [router.post('/create', ...)] *)
Definition post_create (e : env) (body : gmap string value) : M reply :=
  try_catch
    (let departmentName := get_prop body "departmentName" in
     let description := get_prop body "description" in
     let location := get_prop body "location" in
     if negb (truthy departmentName) || negb (truthy location) then
       ret (Response 400 (Json "Department Name and Location are required." None))
     else
       let departmentId := uuid e in
       let timestamp := isoNow e in
       values_append SPREADSHEET_ID (Columns "Departments" 7)
         [Str departmentId; departmentName; description ||| Str ""; location;
          Str ""; Str timestamp; Str timestamp] ;;;
       ret (Response 201 (Json "Department created successfully!"
              (Some (Obj {[ "departmentId" := Str departmentId;
                            "departmentName" := departmentName ]})))))
    server_error.

(** [router.post('/update/:departmentId', ...)] *)
Definition post_update (e : env) (departmentId : string)
    (body : gmap string value) : M reply :=
  try_catch
    (let departmentName := get_prop body "departmentName" in
     let description := get_prop body "description" in
     let location := get_prop body "location" in
     let inChargeEmployeeId := get_prop body "inChargeEmployeeId" in
     rowIndex <- findRowIndexById "Departments" departmentId ;;
     if decide (rowIndex = -1)%Z then
       ret (Response 404 (Json "Department not found." None))
     else
       values <- values_get SPREADSHEET_ID (RowOf "Departments" rowIndex 7) ;;
       existingData <- values_0 values ;;
       let updatedRow :=
         [Str departmentId;
          departmentName ||| cell existingData 1;
          description ||| cell existingData 2;
          location ||| cell existingData 3;
          inChargeEmployeeId ||| cell existingData 4;
          cell existingData 5;
          Str (isoNow e)] in
       values_update SPREADSHEET_ID (RowOf "Departments" rowIndex 7) updatedRow ;;;
       ret (Response 200 (Json "Department updated successfully!"
              (Some (Obj (body ∪ {[ "departmentId" := Str departmentId ]}))))))
    server_error.

(** [router.get('/list', ...)] *)
Definition get_list : M reply :=
  try_catch
    (rows <- values_get SPREADSHEET_ID (Columns "Departments" 7) ;;
     if no_data_rows rows then
       ret (Response 200 (Json "No departments found." (Some (Objs []))))
     else
       let rows := default [] rows in
       let headers := default [] (rows !! 0) in
       let departments :=
         map (λ row,
                forEach headers
                  (λ header index dept, set_prop dept header (cell row index))
                  ∅)
             (drop 1 rows) in
       ret (Response 200 (Json "Departments retrieved successfully."
              (Some (Objs departments)))))
    server_error.

End Departments.

(** ** Employee routes *)
Module Employees.

Definition SPREADSHEET_ID : string :=
  "16P-msveFT6sAav0wAPTU_wZ2tLiQiThgz0Vutpebo8c".

(** [router.post('/create', ...)] *)
Definition post_create (e : env) (body : gmap string value) : M reply :=
  try_catch
    (let employeeName := get_prop body "employeeName" in
     let departmentId := get_prop body "departmentId" in
     let email := get_prop body "email" in
     let phone := get_prop body "phone" in
     let role := get_prop body "role" in
     let responsibilities := get_prop body "responsibilities" in
     if negb (truthy employeeName) || negb (truthy departmentId)
        || negb (truthy role) then
       ret (Response 400
              (Json "Employee Name, Department ID, and Role are required." None))
     else
       let employeeId := uuid e in
       let timestamp := isoNow e in
       values_append SPREADSHEET_ID (Columns "Employees" 9)
         [Str employeeId; employeeName; departmentId; email ||| Str "";
          phone ||| Str ""; role; responsibilities ||| Str "";
          Str timestamp; Str timestamp] ;;;
       ret (Response 201 (Json "Employee created successfully!"
              (Some (Obj {[ "employeeId" := Str employeeId;
                            "employeeName" := employeeName ]})))))
    server_error.

(** The helper declared inside the update handler. *)
Definition findRowIndexById (sheetName id : string) : M Z :=
  rows <- values_get SPREADSHEET_ID (Columns sheetName 1) ;;
  match rows with
  | Some rows => ret (scan_column_A rows id 0)
  | None => ret (-1)%Z
  end.

(** [router.post('/update/:employeeId', ...)] *)
Definition post_update (e : env) (employeeId : string)
    (body : gmap string value) : M reply :=
  try_catch
    (let employeeName := get_prop body "employeeName" in
     let departmentId := get_prop body "departmentId" in
     let email := get_prop body "email" in
     let phone := get_prop body "phone" in
     let role := get_prop body "role" in
     let responsibilities := get_prop body "responsibilities" in
     rowIndex <- findRowIndexById "Employees" employeeId ;;
     if decide (rowIndex = -1)%Z then
       ret (Response 404 (Json "Employee not found." None))
     else
       values <- values_get SPREADSHEET_ID (RowOf "Employees" rowIndex 9) ;;
       existingData <- values_0 values ;;
       let updatedRow :=
         [Str employeeId;
          employeeName ||| cell existingData 1;
          departmentId ||| cell existingData 2;
          email ||| cell existingData 3;
          phone ||| cell existingData 4;
          role ||| cell existingData 5;
          responsibilities ||| cell existingData 6;
          cell existingData 7;
          Str (isoNow e)] in
       values_update SPREADSHEET_ID (RowOf "Employees" rowIndex 9) updatedRow ;;;
       ret (Response 200 (Json "Employee updated successfully!"
              (Some (Obj (body ∪ {[ "employeeId" := Str employeeId ]}))))))
    server_error.

(** [router.get('/list', ...)] *)
Definition get_list : M reply :=
  try_catch
    (rows <- values_get SPREADSHEET_ID (Columns "Employees" 9) ;;
     if no_data_rows rows then
       ret (Response 200 (Json "No employees found." (Some (Objs []))))
     else
       let rows := default [] rows in
       let headers := default [] (rows !! 0) in
       let employees :=
         map (λ row,
                forEach headers
                  (λ header index emp, set_prop emp header (cell row index))
                  ∅)
             (drop 1 rows) in
       ret (Response 200 (Json "Employees retrieved successfully."
              (Some (Objs employees)))))
    server_error.

End Employees.

(** The character [U+0022], for the one message that quotes a header name. *)
Definition dquote : string :=
  String (Ascii.Ascii false true false false false true false false) EmptyString.

(** ** Student routes *)
Module Students.

Definition SPREADSHEET_ID : string :=
  "16P-msveFT6sAav0wAPTU_wZ2tLiQiThgz0Vutpebo8c".

(** [router.post('/create', ...)] *)
Definition post_create (e : env) (body : gmap string value) : M reply :=
  try_catch
    (let studentName := get_prop body "studentName" in
     let rollNumber := get_prop body "rollNumber" in
     let departmentId := get_prop body "departmentId" in
     let course := get_prop body "course" in
     let yearOfStudy := get_prop body "yearOfStudy" in
     let email := get_prop body "email" in
     let phone := get_prop body "phone" in
     if negb (truthy studentName) || negb (truthy rollNumber)
        || negb (truthy departmentId) || negb (truthy course)
        || negb (truthy yearOfStudy) then
       ret (Response 400
              (Json "Student Name, Roll Number, Department, Course, and Year of Study are required."
                 None))
     else
       let studentId := uuid e in
       let timestamp := isoNow e in
       values_append SPREADSHEET_ID (Columns "Students" 10)
         [Str studentId; studentName; rollNumber; departmentId; course;
          yearOfStudy; email ||| Str ""; phone ||| Str "";
          Str timestamp; Str timestamp] ;;;
       ret (Response 201 (Json "Student created successfully!"
              (Some (Obj {[ "studentId" := Str studentId;
                            "studentName" := studentName;
                            "rollNumber" := rollNumber ]})))))
    server_error.

(** The helper declared inside the update handler. *)
Definition findRowIndexById (sheetName id : string) : M Z :=
  rows <- values_get SPREADSHEET_ID (Columns sheetName 1) ;;
  match rows with
  | Some rows => ret (scan_column_A rows id 0)
  | None => ret (-1)%Z
  end.

(** [router.post('/update/:studentId', ...)] *)
Definition post_update (e : env) (studentId : string)
    (body : gmap string value) : M reply :=
  try_catch
    (let studentName := get_prop body "studentName" in
     let rollNumber := get_prop body "rollNumber" in
     let departmentId := get_prop body "departmentId" in
     let course := get_prop body "course" in
     let yearOfStudy := get_prop body "yearOfStudy" in
     let email := get_prop body "email" in
     let phone := get_prop body "phone" in
     rowIndex <- findRowIndexById "Students" studentId ;;
     if decide (rowIndex = -1)%Z then
       ret (Response 404 (Json "Student not found." None))
     else
       values <- values_get SPREADSHEET_ID (RowOf "Students" rowIndex 10) ;;
       existingData <- values_0 values ;;
       let updatedRow :=
         [Str studentId;
          studentName ||| cell existingData 1;
          rollNumber ||| cell existingData 2;
          departmentId ||| cell existingData 3;
          course ||| cell existingData 4;
          yearOfStudy ||| cell existingData 5;
          email ||| cell existingData 6;
          phone ||| cell existingData 7;
          cell existingData 8;
          Str (isoNow e)] in
       values_update SPREADSHEET_ID (RowOf "Students" rowIndex 10) updatedRow ;;;
       ret (Response 200 (Json "Student updated successfully!"
              (Some (Obj (body ∪ {[ "studentId" := Str studentId ]}))))))
    server_error.

(** [router.get('/list', ...)] *)
Definition get_list : M reply :=
  try_catch
    (rows <- values_get SPREADSHEET_ID (Columns "Students" 10) ;;
     if no_data_rows rows then
       ret (Response 200 (Json "No students found." (Some (Objs []))))
     else
       let rows := default [] rows in
       let headers := default [] (rows !! 0) in
       let students :=
         map (λ row,
                forEach headers
                  (λ header index student,
                     set_prop student header (cell row index ||| Str ""))
                  ∅)
             (drop 1 rows) in
       ret (Response 200 (Json "Students retrieved successfully."
              (Some (Objs students)))))
    server_error.

(** [router.get('/list/:departmentId', ...)] *)
Definition get_list_by_department (departmentId : string) : M reply :=
  try_catch
    (rows <- values_get SPREADSHEET_ID (Columns "Students" 10) ;;
     if no_data_rows rows then
       ret (Response 200 (Json "No students found." (Some (Objs []))))
     else
       let rows := default [] rows in
       let headers := default [] (rows !! 0) in
       let departmentIdIndex := indexOf headers "DepartmentID" in
       if decide (departmentIdIndex = -1)%Z then
         ret (Response 500
                (Json (dquote +:+ "DepartmentID" +:+ dquote
                         +:+ " header not found in sheet.") None))
       else
         let students :=
           map (λ row,
                  forEach headers
                    (λ header index student,
                       set_prop student header (cell row index ||| Str ""))
                    ∅)
               (filter (λ row, strict_eq (cell row (Z.to_nat departmentIdIndex))
                                         (Str departmentId))
                       (drop 1 rows)) in
         ret (Response 200
                (Json ("Found " +:+ pretty (length students)
                         +:+ " students for the specified department.")
                      (Some (Objs students)))))
    server_error.

End Students.

(** ** Generator log routes *)
Module GeneratorLog.

Definition SPREADSHEET_ID : string :=
  "1N3v2DYcl316s9qdEzmDitZxj-fVcDV58Bqjps45wcxY".
Definition DRIVE_FOLDER_ID : string := "1yaKKiJkfgaqxaHIWfU13MEJhuy0IT1J7".

Definition uploadToGoogleDrive (fileObject : file_object)
    : M (option drive_data) :=
  try_catch
    (data <- drive_files_create DRIVE_FOLDER_ID fileObject ;;
     drive_permissions_create (data_id data) ;;;
     ret (Some data))
    (λ err, ret None).

(** [router.post('/start-run', upload.single('controlPanelPhoto'), ...)] *)
Definition post_start_run (e : env) (body : gmap string value)
    (file : option file_object) : M reply :=
  try_catch
    (let startingFuelLevel := get_prop body "startingFuelLevel" in
     let runId := get_prop body "runId" in
     if negb (truthy startingFuelLevel) || negb (truthy runId) then
       ret (Response 400 (Json "Starting Fuel Level and Run ID are required." None))
     else
       match file with
       | None => ret (Response 400 (Json "Control panel photo is required." None))
       | Some photoFile =>
           driveResponse <- uploadToGoogleDrive photoFile ;;
           match driveResponse with
           | None =>
               ret (Response 500
                      (Json "Failed to upload image to Google Drive." None))
           | Some driveResponse =>
               values_append SPREADSHEET_ID (Columns "Sheet1" 10)
                 [Str (isoNow e); Str "START"; runId; startingFuelLevel;
                  Str (webViewLink driveResponse)] ;;;
               ret (Response 201 (Json "Generator run started successfully!"
                      (Some (Obj {[ "runId" := runId;
                                    "startingFuelLevel" := startingFuelLevel;
                                    "photoUrl" := Str (webViewLink driveResponse) ]}))))
           end
       end)
    server_error.

(** [router.post('/end-run', upload.single('controlPanelPhoto'), ...)] *)
Definition post_end_run (e : env) (body : gmap string value)
    (file : option file_object) : M reply :=
  try_catch
    (let endingFuelLevel := get_prop body "endingFuelLevel" in
     let remarks := get_prop body "remarks" in
     let runId := get_prop body "runId" in
     if negb (truthy endingFuelLevel) || negb (truthy runId) then
       ret (Response 400 (Json "Ending Fuel Level and Run ID are required." None))
     else
       match file with
       | None => ret (Response 400 (Json "Control panel photo is required." None))
       | Some photoFile =>
           driveResponse <- uploadToGoogleDrive photoFile ;;
           match driveResponse with
           | None =>
               ret (Response 500
                      (Json "Failed to upload image to Google Drive." None))
           | Some driveResponse =>
               values_append SPREADSHEET_ID (Columns "Sheet1" 10)
                 [Str (isoNow e); Str "END"; runId; endingFuelLevel;
                  Str (webViewLink driveResponse); Str ""; Str ""; Str "";
                  Str ""; remarks ||| Str ""] ;;;
               ret (Response 200 (Json "Generator run ended successfully!"
                      (Some (Obj {[ "runId" := runId;
                                    "endingFuelLevel" := endingFuelLevel;
                                    "photoUrl" := Str (webViewLink driveResponse) ]}))))
           end
       end)
    server_error.

(** [router.post('/create-log', ...)] *)
Definition post_create_log (e : env) (body : gmap string value) : M reply :=
  try_catch
    (let runId := get_prop body "runId" in
     let location := get_prop body "location" in
     let operatorId := get_prop body "operatorId" in
     let scheduledStartTime := get_prop body "scheduledStartTime" in
     let scheduledEndTime := get_prop body "scheduledEndTime" in
     if negb (truthy runId) || negb (truthy location) || negb (truthy operatorId)
        || negb (truthy scheduledStartTime) || negb (truthy scheduledEndTime) then
       ret (Response 400 (Json "Please provide all required log details." None))
     else
       values_append SPREADSHEET_ID (Columns "Sheet1" 10)
         [Str (isoNow e); Str "CREATE"; runId; Str ""; Str ""; location;
          operatorId; scheduledStartTime; scheduledEndTime] ;;;
       ret (Response 201 (Json "Generator log created successfully!"
              (Some (Obj body)))))
    server_error.

End GeneratorLog.

(** ** File movement log routes *)
Module FileLog.

Definition SPREADSHEET_ID : string :=
  "1UGtMVujl_yzprHCBu_t3ho_fWK9p8vrTA2e2v8ftaYU".
Definition DRIVE_FOLDER_ID : string := "1fL9cQOSSkXYCtX-ldxtBP7k7eYZqlixO".

Definition uploadToGoogleDrive (qrFile : file_object) : M (option drive_data) :=
  try_catch
    (data <- drive_files_create DRIVE_FOLDER_ID qrFile ;;
     drive_permissions_create (data_id data) ;;;
     ret (Some data))
    (λ err, ret None).

(** [router.post('/register', ...)] *)
Definition post_register (e : env) (body : gmap string value) : M reply :=
  try_catch
    (let fileName := get_prop body "fileName" in
     let description := get_prop body "description" in
     let originatingDepartment := get_prop body "originatingDepartment" in
     let createdBy := get_prop body "createdBy" in
     if negb (truthy fileName) || negb (truthy originatingDepartment)
        || negb (truthy createdBy) then
       ret (Response 400
              (Json "File Name, Originating Department, and Creator are required."
                 None))
     else
       let fileId := uuid e in
       let timestamp := isoNow e in
       let qrCodeBuffer := QrPng fileId in
       let qrFile := FileObject qrCodeBuffer (fileId +:+ ".png") "image/png" in
       driveResponse <- uploadToGoogleDrive qrFile ;;
       match driveResponse with
       | None =>
           ret (Response 500
                  (Json "Failed to upload QR Code to Google Drive." None))
       | Some driveResponse =>
           let newFile : gmap string value :=
             {[ "fileId" := Str fileId;
                "fileName" := fileName;
                "description" := description ||| Str "";
                "originatingDepartment" := originatingDepartment;
                "createdBy" := createdBy;
                "createdAt" := Str timestamp;
                "qrCodeUrl" := Str (webViewLink driveResponse) ]} in
           values_append SPREADSHEET_ID (Columns "Files" 7)
             [Str fileId; fileName; get_prop newFile "description";
              originatingDepartment; createdBy; Str timestamp;
              get_prop newFile "qrCodeUrl"] ;;;
           values_append SPREADSHEET_ID (Columns "Movements" 9)
             [Str timestamp; Str fileId; Str "REGISTERED"; Str "";
              originatingDepartment; createdBy; Str ""; Str "";
              Str "File created."] ;;;
           ret (Response 201
                  (Json "File registered successfully! A QR code has been generated and saved to Google Drive."
                     (Some (Obj newFile))))
       end)
    server_error.

(** [router.post('/forward', ...)] *)
Definition post_forward (e : env) (body : gmap string value) : M reply :=
  try_catch
    (let fileId := get_prop body "fileId" in
     let fromDepartment := get_prop body "fromDepartment" in
     let toDepartment := get_prop body "toDepartment" in
     let forwardedBy := get_prop body "forwardedBy" in
     let workDone := get_prop body "workDone" in
     let workToBeDone := get_prop body "workToBeDone" in
     let remarks := get_prop body "remarks" in
     if negb (truthy fileId) || negb (truthy fromDepartment)
        || negb (truthy toDepartment) || negb (truthy forwardedBy) then
       ret (Response 400
              (Json "File ID, From/To Departments, and User are required." None))
     else
       values_append SPREADSHEET_ID (Columns "Movements" 9)
         [Str (isoNow e); fileId; Str "FORWARDED"; fromDepartment;
          toDepartment; forwardedBy; workDone; workToBeDone; remarks] ;;;
       ret (Response 200
              (Json ("File forwarded to " +:+ js_string toDepartment
                       +:+ ". Awaiting receipt.") None)))
    server_error.

(** [router.post('/receive', ...)] *)
Definition post_receive (e : env) (body : gmap string value) : M reply :=
  try_catch
    (let fileId := get_prop body "fileId" in
     let receivingDepartment := get_prop body "receivingDepartment" in
     let receivedBy := get_prop body "receivedBy" in
     let remarks := get_prop body "remarks" in
     if negb (truthy fileId) || negb (truthy receivingDepartment)
        || negb (truthy receivedBy) then
       ret (Response 400
              (Json "File ID, Receiving Department, and User are required." None))
     else
       values_append SPREADSHEET_ID (Columns "Movements" 9)
         [Str (isoNow e); fileId; Str "RECEIVED"; Str ""; receivingDepartment;
          receivedBy; Str ""; Str ""; remarks] ;;;
       ret (Response 200
              (Json ("File successfully received by "
                       +:+ js_string receivingDepartment +:+ ".") None)))
    server_error.

(** [router.get('/status/:fileId', ...)] *)
Definition get_status (fileId : string) : M reply :=
  try_catch
    (values <- values_get SPREADSHEET_ID (Columns "Movements" 9) ;;
     let rows := default [] values in
     if decide (length rows ≤ 1) then
       ret (Response 404 (Json "No movement history found." None))
     else
       let headers := default [] (rows !! 0) in
       let fileHistoryRows :=
         filter (λ row, strict_eq (cell row 1) (Str fileId)) (drop 1 rows) in
       if decide (length fileHistoryRows = 0) then
         ret (Response 404 (Json "File not found or has no history." None))
       else
         let history :=
           map (λ row,
                  forEach headers
                    (λ header index logEntry,
                       set_prop logEntry header (cell row index))
                    ∅)
               fileHistoryRows in
         match history !! (length history - 1) with
         | None => throw "TypeError"
         | Some latestStatus =>
             ret (Response 200
                    (Json "File history retrieved successfully."
                       (Some (Details
                                {[ "fileId" := Str fileId;
                                   "currentStatus" := get_prop latestStatus "Action";
                                   "currentLocation" := get_prop latestStatus "ToDepartment";
                                   "lastUpdated" := get_prop latestStatus "Timestamp" ]}
                                history))))
         end)
    server_error.

End FileLog.

(** ** Bus log routes *)
Module BusLog.

Definition SPREADSHEET_ID : string :=
  "1M3JkvcPPdDxrrapgicsHkb2w_Dja5-pN5_Q5EDu2u5s".
Definition DRIVE_FOLDER_ID : string := "1GDy_3FQB920etDL9FWkIU-_HZYLNXVz9".

Definition uploadToGoogleDrive (fileObject : file_object)
    : M (option drive_data) :=
  try_catch
    (data <- drive_files_create DRIVE_FOLDER_ID fileObject ;;
     drive_permissions_create (data_id data) ;;;
     ret (Some data))
    (λ err, ret None).

(** [router.post('/start-trip', upload.single('dashboardPhoto'), ...)] *)
Definition post_start_trip (e : env) (body : gmap string value)
    (file : option file_object) : M reply :=
  try_catch
    (let startingKm := get_prop body "startingKm" in
     let tripId := get_prop body "tripId" in
     if negb (truthy startingKm) || negb (truthy tripId) then
       ret (Response 400 (Json "Starting KM and Trip ID are required." None))
     else
       match file with
       | None => ret (Response 400 (Json "Dashboard photo is required." None))
       | Some dashboardPhotoFile =>
           driveResponse <- uploadToGoogleDrive dashboardPhotoFile ;;
           match driveResponse with
           | None =>
               ret (Response 500
                      (Json "Failed to upload image to Google Drive." None))
           | Some driveResponse =>
               values_append SPREADSHEET_ID (Columns "Sheet1" 11)
                 [Str (isoNow e); Str "START"; tripId; startingKm;
                  Str (webViewLink driveResponse)] ;;;
               ret (Response 201 (Json "Trip started successfully!"
                      (Some (Obj {[ "tripId" := tripId;
                                    "startingKm" := startingKm;
                                    "photoUrl" := Str (webViewLink driveResponse) ]}))))
           end
       end)
    server_error.

(** [router.post('/end-trip', upload.single('dashboardPhoto'), ...)] *)
Definition post_end_trip (e : env) (body : gmap string value)
    (file : option file_object) : M reply :=
  try_catch
    (let endingKm := get_prop body "endingKm" in
     let remarks := get_prop body "remarks" in
     let tripId := get_prop body "tripId" in
     if negb (truthy endingKm) || negb (truthy tripId) then
       ret (Response 400 (Json "Ending KM and Trip ID are required." None))
     else
       match file with
       | None => ret (Response 400 (Json "Dashboard photo is required." None))
       | Some dashboardPhotoFile =>
           driveResponse <- uploadToGoogleDrive dashboardPhotoFile ;;
           match driveResponse with
           | None =>
               ret (Response 500
                      (Json "Failed to upload image to Google Drive." None))
           | Some driveResponse =>
               values_append SPREADSHEET_ID (Columns "Sheet1" 11)
                 [Str (isoNow e); Str "END"; tripId; endingKm;
                  Str (webViewLink driveResponse); Str ""; Str ""; Str "";
                  Str ""; Str ""; remarks ||| Str ""] ;;;
               ret (Response 200 (Json "Trip ended successfully!"
                      (Some (Obj {[ "tripId" := tripId;
                                    "endingKm" := endingKm;
                                    "photoUrl" := Str (webViewLink driveResponse) ]}))))
           end
       end)
    server_error.

(** [router.post('/create-trip', ...)] *)
Definition post_create_trip (e : env) (body : gmap string value) : M reply :=
  try_catch
    (let tripId := get_prop body "tripId" in
     let startLocation := get_prop body "startLocation" in
     let endLocation := get_prop body "endLocation" in
     let driverId := get_prop body "driverId" in
     let startTime := get_prop body "startTime" in
     let endTime := get_prop body "endTime" in
     if negb (truthy tripId) || negb (truthy startLocation)
        || negb (truthy endLocation) || negb (truthy driverId)
        || negb (truthy startTime) || negb (truthy endTime) then
       ret (Response 400 (Json "Please provide all required trip details." None))
     else
       values_append SPREADSHEET_ID (Columns "Sheet1" 11)
         [Str (isoNow e); Str "CREATE"; tripId; Str ""; Str ""; startLocation;
          endLocation; driverId; startTime; endTime] ;;;
       ret (Response 201 (Json "Trip created successfully!" (Some (Obj body)))))
    server_error.

End BusLog.

(** ** Vocabulary of the statements *)

(** The next [n] remote calls are served. *)
Definition calm (n : nat) (w : world) : Prop :=
  forallb negb (take n (faults w)) = true.

(** The text of cell [(i, j)] of a grid, 0-based; a missing cell is empty. *)
Definition row_text (r : list string) (j : nat) : string := default "" (r !! j).

Definition cell_text (g : grid) (i j : nat) : string :=
  row_text (default [] (g !! i)) j.

(** The text a cell shows once [v] is written into it. *)
Definition shown (v : value) : string := default "" (render v).

(** The merge policy of the specification: a supplied value wins unless it
    is falsy or empty, otherwise the existing cell is kept. *)
Definition merge_field (supplied : value) (existing : string) : string :=
  if truthy supplied then shown supplied else existing.

(** Row [i] is the first row of [g] whose first cell is [id]. *)
Definition first_match (g : grid) (id : string) (i : nat) : Prop :=
  (∃ row, g !! i = Some row ∧ row !! 0 = Some id) ∧
  ∀ k row, k < i → g !! k = Some row → row !! 0 ≠ Some id.

(** No row of [g] has [id] as its first cell. *)
Definition no_match (g : grid) (id : string) : Prop :=
  ∀ row, row ∈ g → row !! 0 ≠ Some id.

(** The last column that [headers] calls [name], if any. *)
Fixpoint last_index_from (headers : list string) (name : string) (i : nat)
    (acc : option nat) : option nat :=
  match headers with
  | [] => acc
  | h :: hs =>
      last_index_from hs name (S i) (if decide (h = name) then Some i else acc)
  end.

Definition last_index (headers : list string) (name : string) : option nat :=
  last_index_from headers name 0 None.

(** A handler answers 400 without touching the world: no remote call is
    recorded, no fault is consumed, nothing is stored. *)
Definition rejects_locally (h : M reply) : Prop :=
  ∀ w, ∃ msg, h w = (Ok (Response 400 (Json msg None)), w).

(** The calls a run has added to the trace. *)
Definition issued (w w' : world) : list remote_call :=
  drop (length (trace w)) (trace w').

Definition is_append (c : remote_call) : bool :=
  match c with SheetsValuesAppend _ _ _ => true | _ => false end.

(** The row every update handler builds, in general form. *)
Definition updated_row (fields : list string) (e : env) (id : string)
    (body : gmap string value) (existingData : list string) : list value :=
  Str id
  :: imap (λ j f, get_prop body f ||| cell existingData (S j)) fields
  ++ [cell existingData (S (length fields)); Str (isoNow e)].

(** The three entity tables, which share one spreadsheet: the update handler,
    the tab, and the request properties that feed columns B onwards. *)
Definition entity_tables
    : list ((env → string → gmap string value → M reply) * string * list string) :=
  [ (Departments.post_update, "Departments",
     ["departmentName"; "description"; "location"; "inChargeEmployeeId"]);
    (Employees.post_update, "Employees",
     ["employeeName"; "departmentId"; "email"; "phone"; "role";
      "responsibilities"]);
    (Students.post_update, "Students",
     ["studentName"; "rollNumber"; "departmentId"; "course"; "yearOfStudy";
      "email"; "phone"]) ].

Definition ENTITY_SPREADSHEET_ID : string := Departments.SPREADSHEET_ID.

(** The value of [row] in the column that [headers] calls [name]: the last
    such column if several carry the name, [undefined] if none does. *)
Definition column (headers row : list string) (name : string) : value :=
  match last_index headers name with
  | Some j => cell row j
  | None => Undefined
  end.

(** The list of all students and the list filtered by department both
    succeed, and the second is the first restricted to the records whose
    [DepartmentID] is the given value, in the same order. *)
Definition filtered_is_listed_subset (w : world) (departmentId : string) : Prop :=
  ∃ msg1 msg2 all sub w1 w2,
    Students.get_list w = (Ok (Response 200 (Json msg1 (Some (Objs all)))), w1) ∧
    Students.get_list_by_department departmentId w
    = (Ok (Response 200 (Json msg2 (Some (Objs sub)))), w2) ∧
    sub = filter (λ r, get_prop r "DepartmentID" = Str departmentId) all.

(** The list routes: the handler, its tab and the width of its range.  The
    last one is the list of the students of one department. *)
Definition list_routes (departmentId : string) : list (M reply * string * nat) :=
  [ (Departments.get_list, "Departments", 7);
    (Employees.get_list, "Employees", 9);
    (Students.get_list, "Students", 10);
    (Students.get_list_by_department departmentId, "Students", 10) ].

(** The first [w] columns of [g] hold nothing, or a header row and nothing
    under it. *)
Definition without_data (w : nat) (g : grid) : Prop :=
  no_data_rows (values_of w g) = true.

(** The header row names [name] exactly once, as column [j]: the first and
    the last column of that name are the same. *)
Definition names_once (headers : list string) (name : string) (j : nat) : Prop :=
  indexOf headers name = Z.of_nat j ∧ last_index headers name = Some j.

(** One of the properties [names] is missing from the request, or falsy. *)
Definition missing (body : gmap string value) (names : list string) : Prop :=
  ∃ name, name ∈ names ∧ truthy (get_prop body name) = false.

(** All of the properties [names] are present and truthy. *)
Definition present (body : gmap string value) (names : list string) : Prop :=
  ∀ name, name ∈ names → truthy (get_prop body name) = true.

(** The routes that validate their request: the handler, the fields it
    requires, and whether it requires an attachment. *)
Definition validated_routes (e : env) (body : gmap string value)
    (file : option file_object) : list (M reply * list string * bool) :=
  [ (BusLog.post_start_trip e body file, ["startingKm"; "tripId"], true);
    (BusLog.post_end_trip e body file, ["endingKm"; "tripId"], true);
    (BusLog.post_create_trip e body,
     ["tripId"; "startLocation"; "endLocation"; "driverId"; "startTime";
      "endTime"], false);
    (GeneratorLog.post_start_run e body file, ["startingFuelLevel"; "runId"], true);
    (GeneratorLog.post_end_run e body file, ["endingFuelLevel"; "runId"], true);
    (GeneratorLog.post_create_log e body,
     ["runId"; "location"; "operatorId"; "scheduledStartTime";
      "scheduledEndTime"], false);
    (FileLog.post_register e body,
     ["fileName"; "originatingDepartment"; "createdBy"], false);
    (FileLog.post_forward e body,
     ["fileId"; "fromDepartment"; "toDepartment"; "forwardedBy"], false);
    (FileLog.post_receive e body,
     ["fileId"; "receivingDepartment"; "receivedBy"], false);
    (Departments.post_create e body, ["departmentName"; "location"], false);
    (Employees.post_create e body, ["employeeName"; "departmentId"; "role"], false);
    (Students.post_create e body,
     ["studentName"; "rollNumber"; "departmentId"; "course"; "yearOfStudy"],
     false) ].

(** The two routes that log a movement of a file: the handler, the fields it
    requires and the row it appends. *)
Definition movement_routes (e : env) (body : gmap string value)
    : list (M reply * list string * list value) :=
  [ (FileLog.post_forward e body,
     ["fileId"; "fromDepartment"; "toDepartment"; "forwardedBy"],
     [Str (isoNow e); get_prop body "fileId"; Str "FORWARDED";
      get_prop body "fromDepartment"; get_prop body "toDepartment";
      get_prop body "forwardedBy"; get_prop body "workDone";
      get_prop body "workToBeDone"; get_prop body "remarks"]);
    (FileLog.post_receive e body,
     ["fileId"; "receivingDepartment"; "receivedBy"],
     [Str (isoNow e); get_prop body "fileId"; Str "RECEIVED"; Str "";
      get_prop body "receivingDepartment"; get_prop body "receivedBy";
      Str ""; Str ""; get_prop body "remarks"]) ].

(** The routes that upload an attachment before they append a row: the
    handler, the upload it performs and the fields it requires. *)
Definition upload_routes (e : env) (body : gmap string value) (file : file_object)
    : list (M reply * M (option drive_data) * list string) :=
  [ (BusLog.post_start_trip e body (Some file),
     BusLog.uploadToGoogleDrive file, ["startingKm"; "tripId"]);
    (BusLog.post_end_trip e body (Some file),
     BusLog.uploadToGoogleDrive file, ["endingKm"; "tripId"]);
    (GeneratorLog.post_start_run e body (Some file),
     GeneratorLog.uploadToGoogleDrive file, ["startingFuelLevel"; "runId"]);
    (GeneratorLog.post_end_run e body (Some file),
     GeneratorLog.uploadToGoogleDrive file, ["endingFuelLevel"; "runId"]);
    (FileLog.post_register e body,
     FileLog.uploadToGoogleDrive
       (FileObject (QrPng (uuid e)) (uuid e +:+ ".png") "image/png"),
     ["fileName"; "originatingDepartment"; "createdBy"]) ].

(** The upload helper for an arbitrary folder; each module's copy is this
    function at its own [DRIVE_FOLDER_ID]. *)
Definition upload_to (parent : string) (f : file_object) : M (option drive_data) :=
  try_catch
    (data <- drive_files_create parent f ;;
     drive_permissions_create (data_id data) ;;;
     ret (Some data))
    (λ err, ret None).

(** ** Sample states and requests *)

Definition departments_header : list string :=
  ["DepartmentID"; "DepartmentName"; "Description"; "Location";
   "InChargeEmployeeID"; "CreatedAt"; "UpdatedAt"].

(** A department created through the API, and one typed into the sheet by
    hand with its first two cells only. *)
Definition sample_departments : grid :=
  [ departments_header;
    ["d1"; "Physics"; "Optics lab"; "Block A"; "e7";
     "2024-01-01T09:00:00.000Z"; "2024-01-01T09:00:00.000Z"];
    ["d2"; "Maths"] ].

Definition students_header : list string :=
  ["StudentID"; "StudentName"; "RollNumber"; "DepartmentID"; "Course";
   "YearOfStudy"; "Email"; "Phone"; "CreatedAt"; "UpdatedAt"].

Definition sample_students : grid :=
  [ students_header;
    ["s1"; "Asha"; "R-01"; "d1"; "BSc"; "2"; "asha@example.org"; "";
     "2024-02-01T09:00:00.000Z"; "2024-02-01T09:00:00.000Z"];
    ["s2"; "Ravi"; "R-02"; "d2"; "BSc"; "1"; ""; "";
     "2024-02-02T09:00:00.000Z"; "2024-02-02T09:00:00.000Z"];
    ["s3"; "Meena"; "R-03"; "d1"; "MSc"; "1"; ""; "";
     "2024-02-03T09:00:00.000Z"; "2024-02-03T09:00:00.000Z"] ].

Definition movements_header : list string :=
  ["Timestamp"; "FileID"; "Action"; "FromDepartment"; "ToDepartment"; "User";
   "WorkDone"; "WorkToBeDone"; "Remarks"].

Definition files_header : list string :=
  ["FileID"; "FileName"; "Description"; "OriginatingDepartment"; "CreatedBy";
   "CreatedAt"; "QRCodeURL"].

Definition sample_world : world :=
  World {[ (ENTITY_SPREADSHEET_ID, "Departments") := sample_departments;
           (ENTITY_SPREADSHEET_ID, "Employees") := [];
           (ENTITY_SPREADSHEET_ID, "Students") := sample_students;
           (FileLog.SPREADSHEET_ID, "Files") := [files_header];
           (FileLog.SPREADSHEET_ID, "Movements") := [movements_header];
           (BusLog.SPREADSHEET_ID, "Sheet1") := [] ]}
        [] [] [].

(** The same, with Drive rejecting the next call. *)
Definition drive_down_world : world :=
  World (sheetsDb sample_world) [] [true] [].

(** A Students tab whose header row has no [DepartmentID] column. *)
Definition headless_students_world : world :=
  World {[ (ENTITY_SPREADSHEET_ID, "Students") :=
             [ ["StudentID"; "StudentName"]; ["s1"; "Asha"] ] ]}
        [] [] [].

(** A Students tab whose header row names [DepartmentID] twice. *)
Definition twice_named_students_world : world :=
  World {[ (ENTITY_SPREADSHEET_ID, "Students") :=
             [ ["StudentID"; "DepartmentID"; "DepartmentID"];
               ["s1"; "d1"; "d2"] ] ]}
        [] [] [].

(** A Students tab with a student whose department cell is empty. *)
Definition unassigned_student_world : world :=
  World {[ (ENTITY_SPREADSHEET_ID, "Students") :=
             [ ["StudentID"; "DepartmentID"]; ["s1"] ] ]}
        [] [] [].

Definition sample_env : env :=
  Env "2024-03-01T10:00:00.000Z" "3f2b8c1e-5d1a-4c7e-9b0a-6f1d2e3a4b5c".

Definition later_env : env :=
  Env "2024-03-02T10:00:00.000Z" "9a1b2c3d-0000-4000-8000-000000000000".

Definition register_request : gmap string value :=
  {[ "fileName" := Str "Budget 2024";
     "originatingDepartment" := Str "Accounts";
     "createdBy" := Str "e7" ]}.

Definition forward_request : gmap string value :=
  {[ "fileId" := Str (uuid sample_env);
     "fromDepartment" := Str "Accounts";
     "toDepartment" := Str "Audit";
     "forwardedBy" := Str "e7" ]}.

Definition receive_request : gmap string value :=
  {[ "fileId" := Str (uuid sample_env);
     "receivingDepartment" := Str "Audit";
     "receivedBy" := Str "e9" ]}.

Definition sample_photo : file_object :=
  FileObject (Bytes "JPEG") "dashboard.jpg" "image/jpeg".

(** ** Vocabulary of the further properties *)

(** The routes that create an entity: the handler, its tab, the width of its
    range, the fields it requires and the property under which the response
    returns the new identifier. *)
Definition create_routes (e : env) (body : gmap string value)
    : list (M reply * string * nat * list string * string) :=
  [ (Departments.post_create e body, "Departments", 7,
     ["departmentName"; "location"], "departmentId");
    (Employees.post_create e body, "Employees", 9,
     ["employeeName"; "departmentId"; "role"], "employeeId");
    (Students.post_create e body, "Students", 10,
     ["studentName"; "rollNumber"; "departmentId"; "course"; "yearOfStudy"],
     "studentId") ].

(** The routes whose only remote call is one append: the handler, the
    spreadsheet and tab it appends to, and the fields it requires. *)
Definition append_only_routes (e : env) (body : gmap string value)
    : list (M reply * string * string * list string) :=
  [ (Departments.post_create e body, ENTITY_SPREADSHEET_ID, "Departments",
     ["departmentName"; "location"]);
    (Employees.post_create e body, ENTITY_SPREADSHEET_ID, "Employees",
     ["employeeName"; "departmentId"; "role"]);
    (Students.post_create e body, ENTITY_SPREADSHEET_ID, "Students",
     ["studentName"; "rollNumber"; "departmentId"; "course"; "yearOfStudy"]);
    (BusLog.post_create_trip e body, BusLog.SPREADSHEET_ID, "Sheet1",
     ["tripId"; "startLocation"; "endLocation"; "driverId"; "startTime";
      "endTime"]);
    (GeneratorLog.post_create_log e body, GeneratorLog.SPREADSHEET_ID, "Sheet1",
     ["runId"; "location"; "operatorId"; "scheduledStartTime";
      "scheduledEndTime"]);
    (FileLog.post_forward e body, FileLog.SPREADSHEET_ID, "Movements",
     ["fileId"; "fromDepartment"; "toDepartment"; "forwardedBy"]);
    (FileLog.post_receive e body, FileLog.SPREADSHEET_ID, "Movements",
     ["fileId"; "receivingDepartment"; "receivedBy"]) ].

(** The routes that list a whole tab: the handler, its tab, the width of its
    range and what it does to a cell before storing it in the record. *)
Definition list_all_routes : list (M reply * string * nat * (value → value)) :=
  [ (Departments.get_list, "Departments", 7, λ v, v);
    (Employees.get_list, "Employees", 9, λ v, v);
    (Students.get_list, "Students", 10, λ v, v ||| Str "") ].

(** The three copies of the upload helper, each with its folder. *)
Definition upload_helpers : list ((file_object → M (option drive_data)) * string) :=
  [ (BusLog.uploadToGoogleDrive, BusLog.DRIVE_FOLDER_ID);
    (GeneratorLog.uploadToGoogleDrive, GeneratorLog.DRIVE_FOLDER_ID);
    (FileLog.uploadToGoogleDrive, FileLog.DRIVE_FOLDER_ID) ].


(** Every route of the six modules, with the statuses it can answer. *)
Definition all_routes (e : env) (id : string) (body : gmap string value)
    (file : option file_object) : list (M reply * list nat) :=
  [ (Departments.post_create e body, [201; 400; 500]);
    (Departments.post_update e id body, [200; 404; 500]);
    (Departments.get_list, [200; 500]);
    (Employees.post_create e body, [201; 400; 500]);
    (Employees.post_update e id body, [200; 404; 500]);
    (Employees.get_list, [200; 500]);
    (Students.post_create e body, [201; 400; 500]);
    (Students.post_update e id body, [200; 404; 500]);
    (Students.get_list, [200; 500]);
    (Students.get_list_by_department id, [200; 500]);
    (GeneratorLog.post_start_run e body file, [201; 400; 500]);
    (GeneratorLog.post_end_run e body file, [200; 400; 500]);
    (GeneratorLog.post_create_log e body, [201; 400; 500]);
    (FileLog.post_register e body, [201; 400; 500]);
    (FileLog.post_forward e body, [200; 400; 500]);
    (FileLog.post_receive e body, [200; 400; 500]);
    (FileLog.get_status id, [200; 404; 500]);
    (BusLog.post_start_trip e body file, [201; 400; 500]);
    (BusLog.post_end_trip e body file, [200; 400; 500]);
    (BusLog.post_create_trip e body, [201; 400; 500]) ].

(** ** Values entered as by a user *)

(** Every write of the handlers passes [valueInputOption: 'USER_ENTERED']:
    the service reads a written text the way it reads what a user types into
    a cell (a numeral becomes a number, a date is recognised, and so on), and
    the cell then shows the text of what it was taken for.  [entered] stands
    for that reading: [entered s] is what a cell shows once [s] has been
    typed into it.  The backend above is the service whose [entered] is the
    identity; the properties that read back what a handler wrote are stated
    for an arbitrary [entered], and say which texts they need kept. *)

(** The service keeps the text [s] as typed. *)
Definition kept_as_typed (entered : string → string) (s : string) : Prop :=
  entered s = s.

(** A value of a write request, as the service takes it. *)
Definition typed (entered : string → string) (v : value) : value :=
  match render v with
  | Some s => Str (entered s)
  | None => v
  end.

(** The cells once the service has served the call [c]: a read changes
    nothing, an append and an update store the values as they are taken. *)
Definition served (entered : string → string)
    (db : gmap (string * string) grid) (c : remote_call)
    : gmap (string * string) grid :=
  match c with
  | SheetsValuesAppend ssid range row =>
      match db !! (ssid, range_tab range) with
      | Some g =>
          <[(ssid, range_tab range) :=
              rstrip is_blank_row g ++ [write_cells (map (typed entered) row) []]]>
            db
      | None => db
      end
  | SheetsValuesUpdate ssid (RowOf tab r _) row =>
      match db !! (ssid, tab) with
      | Some g =>
          if decide (1 ≤ r)%Z
          then <[(ssid, tab) :=
                   write_row (Z.to_nat r - 1) (map (typed entered) row) g]> db
          else db
      | None => db
      end
  | _ => db
  end.

(** The cells once the calls [cs] have been served, in that order. *)
Definition cells_after (entered : string → string) (cs : list remote_call)
    (db : gmap (string * string) grid) : gmap (string * string) grid :=
  foldl (served entered) db cs.

(** A reading that takes a text of digits for a number and shows it without
    its leading zeros, and keeps every other text. *)
Fixpoint is_numeral (s : string) : bool :=
  match s with
  | EmptyString => true
  | String a s' =>
      Nat.leb 48 (Ascii.nat_of_ascii a) && Nat.leb (Ascii.nat_of_ascii a) 57
      && is_numeral s'
  end.

Fixpoint drop_zeros (s : string) : string :=
  match s with
  | String a (String _ _ as s') =>
      if Nat.eqb (Ascii.nat_of_ascii a) 48 then drop_zeros s' else s
  | _ => s
  end.

Definition numerals_as_numbers (s : string) : string :=
  if is_numeral s then drop_zeros s else s.

(** * Properties *)

(** ** Running remote calls *)

Lemma calm_tick n w c : calm (S n) w → calm n (tick c w).
Proof.
  unfold calm, tick; simpl. destruct (faults w) as [|b fs]; simpl.
  - by rewrite take_nil.
  - by intros [_ H]%andb_prop.
Qed.

Lemma calm_weaken n m w : m ≤ n → calm n w → calm m w.
Proof.
  unfold calm. generalize (faults w). clear w. intros fs. revert m fs.
  induction n as [|n IH]; intros m fs Hle.
  - replace m with 0 by lia. done.
  - destruct m as [|m]; [done|]. destruct fs as [|b fs]; [done|]. simpl.
    intros [Hb Hr]%andb_prop. rewrite Hb. simpl. apply IH; [lia|done].
Qed.

Lemma remote_calm {A : Type} (c : remote_call) (op : M A) n w :
  calm (S n) w → remote c op w = op (tick c w).
Proof.
  unfold calm, remote. destruct (faults w) as [|[] fs]; simpl; try done.
Qed.

Lemma remote_fault {A : Type} (c : remote_call) (op : M A) fs w :
  faults w = true :: fs → remote c op w = (Thrown "remote call failed", tick c w).
Proof. unfold remote. by intros ->. Qed.

Lemma sheetsDb_tick c w : sheetsDb (tick c w) = sheetsDb w.
Proof. done. Qed.

Lemma trace_tick c w : trace (tick c w) = trace w ++ [c].
Proof. done. Qed.

(** Whatever happens, a read leaves the spreadsheets as they are. *)
Lemma values_get_keeps_sheets ssid range w :
  sheetsDb (values_get ssid range w).2 = sheetsDb w.
Proof.
  unfold values_get, remote.
  destruct (faults w) as [|[] fs]; simpl; try done;
    destruct (sheetsDb w !! (ssid, range_tab range)); simpl; try done;
    destruct range; simpl; try done; case_decide; done.
Qed.

Lemma values_get_columns ssid tab k n w g :
  calm (S n) w →
  sheetsDb w !! (ssid, tab) = Some g →
  values_get ssid (Columns tab k) w
  = (Ok (values_of k g), tick (SheetsValuesGet ssid (Columns tab k)) w).
Proof.
  intros Hc Hg. unfold values_get. rewrite (remote_calm _ _ n) by done.
  simpl. by rewrite Hg.
Qed.

Lemma values_get_row ssid tab r k n w g :
  calm (S n) w →
  sheetsDb w !! (ssid, tab) = Some g →
  (1 ≤ r)%Z →
  values_get ssid (RowOf tab r k) w
  = (Ok (values_of k (take 1 (drop (Z.to_nat r - 1) g))),
     tick (SheetsValuesGet ssid (RowOf tab r k)) w).
Proof.
  intros Hc Hg Hr. unfold values_get. rewrite (remote_calm _ _ n) by done.
  cbn [range_tab]. cbv beta. rewrite sheetsDb_tick, Hg. by case_decide.
Qed.

Lemma values_append_run ssid tab k row n w g :
  calm (S n) w →
  sheetsDb w !! (ssid, tab) = Some g →
  values_append ssid (Columns tab k) row w
  = (Ok (),
     with_sheets (<[(ssid, tab) := rstrip is_blank_row g ++ [write_cells row []]]>
                    (sheetsDb w))
       (tick (SheetsValuesAppend ssid (Columns tab k) row) w)).
Proof.
  intros Hc Hg. unfold values_append. rewrite (remote_calm _ _ n) by done.
  simpl. by rewrite Hg.
Qed.

Lemma values_update_run ssid tab r k row n w g :
  calm (S n) w →
  sheetsDb w !! (ssid, tab) = Some g →
  (1 ≤ r)%Z →
  values_update ssid (RowOf tab r k) row w
  = (Ok (),
     with_sheets (<[(ssid, tab) := write_row (Z.to_nat r - 1) row g]> (sheetsDb w))
       (tick (SheetsValuesUpdate ssid (RowOf tab r k) row) w)).
Proof.
  intros Hc Hg Hr. unfold values_update. rewrite (remote_calm _ _ n) by done.
  cbn [range_tab]. cbv beta. rewrite sheetsDb_tick, Hg. by case_decide.
Qed.

Lemma issued_ticks w cs (w' : world) :
  trace w' = trace w ++ cs → issued w w' = cs.
Proof. intros H. unfold issued. rewrite H. by rewrite drop_app_length. Qed.

(** ** Trailing cells and rows *)

Section rstrip.
Context {A : Type} (p : A → bool).

Lemma rstrip_split (l : list A) :
  ∃ t, l = rstrip p l ++ t ∧ Forall (λ x, p x = true) t.
Proof.
  induction l as [|x l (t & Hl & Ht)]; simpl.
  - exists []. by split.
  - destruct (rstrip p l) as [|y s] eqn:E.
    + destruct (p x) eqn:Hx.
      * exists (x :: l). split; [done|]. simpl in Hl. subst t.
        by constructor.
      * exists l. split; [done|]. simpl in Hl. by subst t.
    + exists t. split; [|done]. simpl. by rewrite Hl at 1.
Qed.

Lemma rstrip_lookup_Some (l : list A) i x :
  rstrip p l !! i = Some x → l !! i = Some x.
Proof.
  destruct (rstrip_split l) as (t & Hl & _). intros H.
  rewrite Hl. by apply lookup_app_l_Some.
Qed.

(** An element that does not satisfy [p] survives, with all before it. *)
Lemma rstrip_lookup_before (l : list A) i x k :
  l !! i = Some x → p x = false → k ≤ i → rstrip p l !! k = l !! k.
Proof.
  destruct (rstrip_split l) as (t & Hl & Ht). intros Hi Hx Hk.
  assert (i < length (rstrip p l)) as Hlen.
  { destruct (decide (i < length (rstrip p l))) as [|Hge]; [done|].
    exfalso. rewrite Hl in Hi. rewrite lookup_app_r in Hi by lia.
    rewrite Forall_forall in Ht.
    apply list_elem_of_lookup_2 in Hi. apply Ht in Hi. congruence. }
  rewrite Hl at 2. rewrite lookup_app_l; [done|lia].
Qed.

Lemma rstrip_lookup_None (l : list A) i x :
  rstrip p l !! i = None → l !! i = Some x → p x = true.
Proof.
  intros Hn Hi. destruct (p x) eqn:Hx; [done|].
  rewrite (rstrip_lookup_before l i x i) in Hn by done. congruence.
Qed.

Lemma rstrip_snoc (l : list A) x :
  p x = false → rstrip p (l ++ [x]) = l ++ [x].
Proof.
  intros Hx. induction l as [|y l IH]; simpl.
  - by rewrite Hx.
  - rewrite IH. by destruct l.
Qed.

Lemma rstrip_length (l : list A) : length (rstrip p l) ≤ length l.
Proof.
  destruct (rstrip_split l) as (t & Hl & _).
  rewrite Hl at 2. rewrite length_app. lia.
Qed.
End rstrip.

(** ** Reading cells *)

Lemma strict_eq_cell (row : list string) j s :
  strict_eq (cell row j) (Str s) = true ↔ row !! j = Some s.
Proof.
  unfold strict_eq, cell. rewrite bool_decide_eq_true.
  destruct (row !! j); split; intros H; congruence.
Qed.

Lemma is_empty_cell_false s : s ≠ "" → is_empty_cell s = false.
Proof. by destruct s. Qed.

Lemma is_empty_cell_true s : is_empty_cell s = true → s = "".
Proof. by destruct s. Qed.

(** A row as the service returns it for the first [w] columns. *)
Lemma returned_row_lookup_Some w (r : list string) j s :
  rstrip is_empty_cell (take w r) !! j = Some s → r !! j = Some s.
Proof.
  intros H%rstrip_lookup_Some. apply lookup_take_Some in H. tauto.
Qed.

Lemma returned_row_keeps w (r : list string) j s :
  j < w → s ≠ "" → r !! j = Some s →
  rstrip is_empty_cell (take w r) !! j = Some s.
Proof.
  intros Hj Hs Hr.
  assert (take w r !! j = Some s) as Ht by (by apply lookup_take_Some).
  rewrite (rstrip_lookup_before _ _ j s j); auto using is_empty_cell_false.
Qed.

Lemma is_blank_row_false (r : list string) j s :
  r !! j = Some s → s ≠ "" → is_blank_row r = false.
Proof.
  intros Hr Hs. apply not_true_is_false. unfold is_blank_row.
  rewrite forallb_forall. intros H.
  assert (is_empty_cell s = true) as E%is_empty_cell_true; [|done].
  apply H, list_elem_of_In. by eapply list_elem_of_lookup_2.
Qed.

(** The rows of a grid as the service returns them: up to row [i], when row
    [i] holds some text in the first [w] columns. *)
Lemma returned_rows_before w (g : grid) i row j s k :
  g !! i = Some row → row !! j = Some s → j < w → s ≠ "" → k ≤ i →
  ∃ rows, values_of w g = Some rows ∧
          rows !! k = (λ r, rstrip is_empty_cell (take w r)) <$> (g !! k).
Proof.
  intros Hg Hr Hj Hs Hk. unfold values_of.
  set (f := λ r : list string, rstrip is_empty_cell (take w r)).
  assert (map f g !! i = Some (f row)) as Hi by (by rewrite list_lookup_fmap, Hg).
  assert (is_blank_row (f row) = false) as Hb.
  { eapply is_blank_row_false; [|done]. by apply returned_row_keeps. }
  assert (∀ k, k ≤ i → rstrip is_blank_row (map f g) !! k = f <$> (g !! k)) as Hpre.
  { intros k' Hk'. rewrite (rstrip_lookup_before _ _ i (f row) k') by done.
    by rewrite list_lookup_fmap. }
  destruct (rstrip is_blank_row (map f g)) as [|r0 rs] eqn:E.
  - specialize (Hpre i (le_n _)). rewrite Hg in Hpre. done.
  - eexists. split; [done|]. by apply Hpre.
Qed.

Lemma returned_rows_lookup w (g : grid) rows k r :
  values_of w g = Some rows → rows !! k = Some r →
  ∃ r0, g !! k = Some r0 ∧ r = rstrip is_empty_cell (take w r0).
Proof.
  unfold values_of. intros Hv Hk.
  assert (rstrip is_blank_row (map (λ r, rstrip is_empty_cell (take w r)) g) !! k
          = Some r) as H.
  { destruct (rstrip is_blank_row _); [done|]. by simplify_eq. }
  apply rstrip_lookup_Some in H. rewrite list_lookup_fmap in H.
  destruct (g !! k) as [r0|]; [|done]. exists r0. by simplify_eq/=.
Qed.

(** ** Finding a row by its key *)

Lemma scan_column_A_found (rows : grid) id z i :
  first_match rows id i → scan_column_A rows id z = (z + Z.of_nat i + 1)%Z.
Proof.
  revert z i. induction rows as [|row rows IH]; intros z i [(r & Hr & Hid) Hbefore].
  - by rewrite lookup_nil in Hr.
  - simpl. destruct (strict_eq (cell row 0) (Str id)) eqn:E.
    + apply strict_eq_cell in E. destruct i as [|i]; [lia|].
      exfalso. by apply (Hbefore 0 row); [lia| |].
    + destruct i as [|i].
      * simplify_eq/=. apply strict_eq_cell in Hid. congruence.
      * rewrite (IH (z + 1)%Z i); [lia|]. split; [by exists r|].
        intros k row' Hk Hrow'. apply (Hbefore (S k) row'); [lia|done].
Qed.

Lemma scan_column_A_missing (rows : grid) id z :
  no_match rows id → scan_column_A rows id z = (-1)%Z.
Proof.
  revert z. induction rows as [|row rows IH]; intros z Hno; [done|].
  simpl. destruct (strict_eq (cell row 0) (Str id)) eqn:E.
  - apply strict_eq_cell in E. exfalso. apply (Hno row); [left|done].
  - apply IH. intros r Hr. apply Hno. by right.
Qed.

Lemma first_match_returned w (g : grid) id i :
  0 < w → id ≠ "" → first_match g id i →
  ∃ rows, values_of w g = Some rows ∧ first_match rows id i.
Proof.
  intros Hw Hid [(row & Hrow & Hcell) Hbefore].
  destruct (returned_rows_before w g i row 0 id i) as (rows & Hv & Hi); auto.
  exists rows. split; [done|]. split.
  - rewrite Hrow in Hi. eexists. split; [done|]. by apply returned_row_keeps.
  - intros k r Hk Hr Hr0.
    destruct (returned_rows_lookup w g rows k r) as (r0 & Hg0 & ->); auto.
    apply returned_row_lookup_Some in Hr0. by apply (Hbefore k r0).
Qed.

Lemma no_match_returned w (g : grid) id rows :
  no_match g id → values_of w g = Some rows → no_match rows id.
Proof.
  intros Hno Hv r [k Hk]%list_elem_of_lookup_1 Hr0.
  destruct (returned_rows_lookup w g rows k r) as (r0 & Hg0 & ->); auto.
  apply returned_row_lookup_Some in Hr0.
  apply (Hno r0); [by eapply list_elem_of_lookup_2|done].
Qed.

Lemma findRowIndexById_run tab id n w (g : grid) :
  calm (S n) w →
  sheetsDb w !! (Departments.SPREADSHEET_ID, tab) = Some g →
  Departments.findRowIndexById tab id w
  = (Ok (match values_of 1 g with
         | Some rows => scan_column_A rows id 0
         | None => (-1)%Z
         end),
     tick (SheetsValuesGet Departments.SPREADSHEET_ID (Columns tab 1)) w).
Proof.
  intros Hc Hg. unfold Departments.findRowIndexById, bind.
  rewrite (values_get_columns _ _ _ n w g) by done.
  by destruct (values_of 1 g).
Qed.

Lemma findRowIndexById_found tab id n w (g : grid) i :
  calm (S n) w →
  sheetsDb w !! (Departments.SPREADSHEET_ID, tab) = Some g →
  id ≠ "" → first_match g id i →
  Departments.findRowIndexById tab id w
  = (Ok (Z.of_nat i + 1)%Z,
     tick (SheetsValuesGet Departments.SPREADSHEET_ID (Columns tab 1)) w).
Proof.
  intros Hc Hg Hid Hm. rewrite (findRowIndexById_run _ _ n w g) by done.
  destruct (first_match_returned 1 g id i) as (rows & -> & Hrows); auto.
  by rewrite (scan_column_A_found rows id 0 i).
Qed.

Lemma findRowIndexById_missing tab id n w (g : grid) :
  calm (S n) w →
  sheetsDb w !! (Departments.SPREADSHEET_ID, tab) = Some g →
  no_match g id →
  Departments.findRowIndexById tab id w
  = (Ok (-1)%Z,
     tick (SheetsValuesGet Departments.SPREADSHEET_ID (Columns tab 1)) w).
Proof.
  intros Hc Hg Hm. rewrite (findRowIndexById_run _ _ n w g) by done.
  destruct (values_of 1 g) as [rows|] eqn:E; [|done].
  rewrite scan_column_A_missing; [done|]. by eapply no_match_returned.
Qed.

(** The employee and the student module carry their own copy of the helper;
    the copies are the same function. *)
Lemma findRowIndexById_copies :
  Employees.findRowIndexById = Departments.findRowIndexById ∧
  Students.findRowIndexById = Departments.findRowIndexById.
Proof. by split. Qed.

(** ** Writing cells *)

Lemma row_text_write_cells vals (old : list string) j :
  row_text (write_cells vals old) j
  = default (row_text old j) (vals !! j ≫= render).
Proof.
  revert old j. induction vals as [|v vs IH]; intros old j; [done|].
  destruct j as [|j]; simpl.
  - unfold row_text. simpl. by rewrite head_lookup.
  - unfold row_text in *. simpl. rewrite IH. by rewrite lookup_tail.
Qed.

Lemma existing_cell_kept w (row : list string) j :
  default (row_text row j) (render (cell (rstrip is_empty_cell (take w row)) j))
  = row_text row j.
Proof.
  unfold cell.
  destruct (rstrip is_empty_cell (take w row) !! j) as [s|] eqn:E; [|done].
  apply returned_row_lookup_Some in E. unfold row_text. by rewrite E.
Qed.

Lemma render_truthy v : truthy v = true → render v = Some (shown v).
Proof. by destruct v. Qed.

Lemma truthy_Str s : truthy (Str s) = true ↔ s ≠ "".
Proof. destruct s; simpl; split; done. Qed.

(** One merged cell: the code's [supplied || existingData[j]] written over
    the row is the specification's [merge_field]. *)
Lemma merge_cell w (row : list string) v j :
  default (row_text row j)
    (render (v ||| cell (rstrip is_empty_cell (take w row)) j))
  = merge_field v (row_text row j).
Proof.
  unfold js_or, merge_field. destruct (truthy v) eqn:E.
  - by rewrite render_truthy.
  - apply existing_cell_kept.
Qed.

Lemma cell_text_alter (f : list string → list string) (g : grid) i j row :
  g !! i = Some row → cell_text (alter f i g) i j = row_text (f row) j.
Proof. intros Hg. unfold cell_text. by rewrite list_lookup_alter_eq, Hg. Qed.

(** The single-row read that follows a successful lookup. *)
Lemma values_of_found_row w (g : grid) i row id :
  0 < w → g !! i = Some row → row !! 0 = Some id → id ≠ "" →
  values_of w (take 1 (drop i g)) = Some [rstrip is_empty_cell (take w row)].
Proof.
  intros Hw Hg Hid Hne. rewrite (drop_S _ _ _ Hg). simpl.
  unfold values_of. simpl.
  rewrite (is_blank_row_false _ 0 id); [done| |done].
  by apply returned_row_keeps.
Qed.

(** ** The merge update, step by step *)

Lemma write_row_inside i vals (g : grid) row :
  g !! i = Some row → write_row i vals g = alter (write_cells vals) i g.
Proof.
  intros Hg. unfold write_row. case_decide as H; [done|].
  apply lookup_lt_Some in Hg. lia.
Qed.

(** After [unfold]ing an update handler: look the key up, read the row, write
    the merged row. *)
Ltac run_found_update Hc Hg Hm w g i row id width :=
  unfold try_catch, bind;
  change Employees.findRowIndexById with Departments.findRowIndexById;
  change Students.findRowIndexById with Departments.findRowIndexById;
  rewrite (findRowIndexById_found _ _ 2 w g i) by done;
  case_decide; [lia|];
  rewrite (values_get_row _ _ _ _ 1 _ g) by (auto using calm_tick; lia);
  replace (Z.to_nat (Z.of_nat i + 1) - 1) with i by lia;
  rewrite (values_of_found_row width g i row id) by (done || lia);
  cbn [values_0 ret];
  rewrite (values_update_run _ _ _ _ _ 0 _ g) by (auto using calm_tick; lia);
  replace (Z.to_nat (Z.of_nat i + 1) - 1) with i by lia;
  rewrite (write_row_inside _ _ _ row) by done.

(** The calls of a served update: the read of column A, the read of the row
    found, and one write to that same row. *)
Lemma update_run_calls update tab fields e id body w (g : grid) i :
  (update, tab, fields) ∈ entity_tables →
  calm 3 w →
  sheetsDb w !! (ENTITY_SPREADSHEET_ID, tab) = Some g →
  id ≠ "" → first_match g id i →
  ∃ row r w',
    g !! i = Some row ∧ row !! 0 = Some id ∧
    update e id body w = (Ok r, w') ∧ status r = 200 ∧
    issued w w'
    = [SheetsValuesGet ENTITY_SPREADSHEET_ID (Columns tab 1);
       SheetsValuesGet ENTITY_SPREADSHEET_ID
         (RowOf tab (Z.of_nat i + 1) (length fields + 3));
       SheetsValuesUpdate ENTITY_SPREADSHEET_ID
         (RowOf tab (Z.of_nat i + 1) (length fields + 3))
         (updated_row fields e id body
            (rstrip is_empty_cell (take (length fields + 3) row)))].
Proof.
  intros Hin Hc Hg Hid Hm. pose proof Hm as [(row & Hrow & Hcell) _].
  unfold entity_tables in Hin. set_unfold in Hin.
  destruct Hin as [?|[?|[?|[]]]]; simplify_eq.
  - exists row. do 2 eexists. split; [done|]. split; [done|].
    unfold Departments.post_update. run_found_update Hc Hg Hm w g i row id 7.
    split; [reflexivity|]. split; [done|].
    apply issued_ticks. cbn [trace with_sheets tick]. by rewrite <- !app_assoc.
  - exists row. do 2 eexists. split; [done|]. split; [done|].
    unfold Employees.post_update. run_found_update Hc Hg Hm w g i row id 9.
    split; [reflexivity|]. split; [done|].
    apply issued_ticks. cbn [trace with_sheets tick]. by rewrite <- !app_assoc.
  - exists row. do 2 eexists. split; [done|]. split; [done|].
    unfold Students.post_update. run_found_update Hc Hg Hm w g i row id 10.
    split; [reflexivity|]. split; [done|].
    apply issued_ticks. cbn [trace with_sheets tick]. by rewrite <- !app_assoc.
Qed.

(** The run of an update handler whose key is in no row. *)
Lemma findRowIndexById_fault tab id fs w :
  faults w = true :: fs →
  Departments.findRowIndexById tab id w
  = (Thrown "remote call failed",
     tick (SheetsValuesGet Departments.SPREADSHEET_ID (Columns tab 1)) w).
Proof.
  intros Hf. unfold Departments.findRowIndexById, bind, values_get.
  by rewrite (remote_fault _ _ fs).
Qed.

Lemma calm_or_fault w : calm 1 w ∨ ∃ fs, faults w = true :: fs.
Proof.
  unfold calm. destruct (faults w) as [|[] fs]; eauto.
Qed.

Ltac run_missing_update Hg Hno w g :=
  unfold try_catch, bind;
  change Employees.findRowIndexById with Departments.findRowIndexById;
  change Students.findRowIndexById with Departments.findRowIndexById;
  destruct (calm_or_fault w) as [Hc|[fs Hf]];
  [ rewrite (findRowIndexById_missing _ _ 0 w g) by done;
    case_decide; [|done]; unfold ret; cbn [fst snd tick trace sheetsDb];
    split; [done|]; split; [intros _; eauto|by rewrite drop_app_length]
  | rewrite (findRowIndexById_fault _ _ fs) by done;
    unfold server_error, ret; cbn [fst snd tick trace sheetsDb];
    split; [done|]; split; [|by rewrite drop_app_length]; intros Hc; exfalso;
    unfold calm in Hc; rewrite Hf in Hc; done ].

Lemma update_missing_key update tab fields e id body w (g : grid) :
  (update, tab, fields) ∈ entity_tables →
  sheetsDb w !! (ENTITY_SPREADSHEET_ID, tab) = Some g →
  no_match g id →
  sheetsDb (update e id body w).2 = sheetsDb w ∧
  (calm 1 w → ∃ msg, (update e id body w).1 = Ok (Response 404 (Json msg None))) ∧
  issued w (update e id body w).2
  = [SheetsValuesGet ENTITY_SPREADSHEET_ID (Columns tab 1)].
Proof.
  intros Hin Hg Hno.
  unfold entity_tables in Hin. unfold issued.
  set_unfold in Hin. destruct Hin as [?|[?|[?|[]]]]; simplify_eq.
  - unfold Departments.post_update. run_missing_update Hg Hno w g.
  - unfold Employees.post_update. run_missing_update Hg Hno w g.
  - unfold Students.post_update. run_missing_update Hg Hno w g.
Qed.

(** ** Values entered as by a user *)

Lemma render_typed entered v : render (typed entered v) = entered <$> render v.
Proof. by destruct v. Qed.

Lemma row_text_entered entered vals (old : list string) j :
  row_text (write_cells (map (typed entered) vals) old) j
  = default (row_text old j) (entered <$> (vals !! j ≫= render)).
Proof.
  rewrite row_text_write_cells, list_lookup_fmap.
  destruct (vals !! j) as [v|]; [|done]. simpl. by rewrite render_typed.
Qed.

(** The backend of the handlers is the service that keeps every text. *)
Lemma write_cells_verbatim vals (old : list string) :
  write_cells (map (typed (λ s, s)) vals) old = write_cells vals old.
Proof.
  revert old. induction vals as [|v vs IH]; intros old; [done|].
  simpl. rewrite IH. by destruct v.
Qed.

(** A cell written with a text that is kept shows what the verbatim backend
    shows. *)
Lemma kept_cell entered (old : string) v m :
  default old (render v) = m → kept_as_typed entered m →
  default old (entered <$> render v) = m.
Proof. intros H Hk. destruct (render v); simpl in *; congruence. Qed.

Lemma write_row_verbatim i vals (g : grid) :
  write_row i (map (typed (λ s, s)) vals) g = write_row i vals g.
Proof.
  unfold write_row. rewrite write_cells_verbatim. case_decide; [|done].
  apply list_alter_ext; [|done]. intros old _. apply write_cells_verbatim.
Qed.

Lemma values_append_served ssid tab k row n w (g : grid) :
  calm (S n) w →
  sheetsDb w !! (ssid, tab) = Some g →
  sheetsDb (values_append ssid (Columns tab k) row w).2
  = served (λ s, s) (sheetsDb w) (SheetsValuesAppend ssid (Columns tab k) row).
Proof.
  intros Hc Hg. rewrite (values_append_run _ _ _ _ n w g) by done.
  cbn [snd sheetsDb with_sheets served range_tab].
  by rewrite Hg, write_cells_verbatim.
Qed.

Lemma values_update_served ssid tab r k row n w (g : grid) :
  calm (S n) w →
  sheetsDb w !! (ssid, tab) = Some g →
  (1 ≤ r)%Z →
  sheetsDb (values_update ssid (RowOf tab r k) row w).2
  = served (λ s, s) (sheetsDb w) (SheetsValuesUpdate ssid (RowOf tab r k) row).
Proof.
  intros Hc Hg Hr. rewrite (values_update_run _ _ _ _ _ n w g) by done.
  cbn [snd sheetsDb with_sheets served]. rewrite Hg, decide_True by done.
  by rewrite write_row_verbatim.
Qed.

(** The cells a served update leaves, whatever the service makes of the
    texts. *)
Lemma cells_after_update entered update tab fields e id body w (g : grid) i :
  (update, tab, fields) ∈ entity_tables →
  calm 3 w →
  sheetsDb w !! (ENTITY_SPREADSHEET_ID, tab) = Some g →
  id ≠ "" → first_match g id i →
  ∃ row,
    g !! i = Some row ∧ row !! 0 = Some id ∧
    cells_after entered (issued w (update e id body w).2) (sheetsDb w)
    = <[(ENTITY_SPREADSHEET_ID, tab) :=
          alter (write_cells
                   (map (typed entered)
                      (updated_row fields e id body
                         (rstrip is_empty_cell (take (length fields + 3) row)))))
            i g]> (sheetsDb w).
Proof.
  intros Hin Hc Hg Hid Hm.
  destruct (update_run_calls update tab fields e id body w g i Hin Hc Hg Hid Hm)
    as (row & r & w' & Hrow & Hcell & Hrun & _ & Hcalls).
  exists row. split; [done|]. split; [done|].
  rewrite Hrun. cbn [snd]. rewrite Hcalls.
  unfold cells_after. cbn [foldl served]. rewrite Hg.
  rewrite decide_True by lia.
  replace (Z.to_nat (Z.of_nat i + 1) - 1) with i by lia.
  by rewrite (write_row_inside _ _ _ row).
Qed.

(** ** Records built from a header row *)

Lemma last_index_from_acc headers name i acc :
  last_index_from headers name i acc
  = match last_index_from headers name i None with
    | Some j => Some j
    | None => acc
    end.
Proof.
  revert i acc. induction headers as [|h hs IH]; intros i acc; [done|].
  simpl. rewrite IH. rewrite (IH _ (if decide (h = name) then Some i else None)).
  destruct (last_index_from hs name (S i) None); [done|]. by case_decide.
Qed.

Lemma last_index_from_Some headers name i acc j :
  last_index_from headers name i acc = Some j →
  acc = Some j ∨ (i ≤ j ∧ headers !! (j - i) = Some name).
Proof.
  revert i acc. induction headers as [|h hs IH]; intros i acc H; [by left|].
  simpl in H. apply IH in H as [H|[Hle H]].
  - case_decide; [|by left]. simplify_eq. right.
    split; [done|]. by rewrite Nat.sub_diag.
  - right. split; [lia|]. by replace (j - i) with (S (j - S i)) by lia.
Qed.

Lemma last_index_Some headers name j :
  last_index headers name = Some j → headers !! j = Some name.
Proof.
  intros [?|[_ H]]%last_index_from_Some; [done|]. by rewrite Nat.sub_0_r in H.
Qed.

Lemma last_index_from_elem headers name i acc :
  name ∈ headers → ∃ j, last_index_from headers name i acc = Some j.
Proof.
  revert i acc. induction headers as [|h hs IH]; intros i acc Hin.
  - by apply elem_of_nil in Hin.
  - simpl. destruct (decide (name ∈ hs)) as [Hhs|Hhs]; [by apply IH|].
    apply elem_of_cons in Hin as [->|?]; [|done].
    rewrite last_index_from_acc. rewrite decide_True by done.
    destruct (last_index_from hs h (S i) None); eauto.
Qed.

Section records.
Context (val : nat → value).

Lemma forEach_from_lookup headers name i (o : gmap string value) :
  name ≠ "__proto__" →
  forEach_from (λ header index o, set_prop o header (val index)) headers i o
    !! name
  = match last_index_from headers name i None with
    | Some j => Some (val j)
    | None => o !! name
    end.
Proof.
  intros Hname. revert i o.
  induction headers as [|h hs IH]; intros i o; [done|].
  simpl. rewrite IH.
  rewrite (last_index_from_acc hs name (S i) (if decide (h = name) then _ else _)).
  destruct (last_index_from hs name (S i) None); [done|].
  unfold set_prop. destruct (decide (h = name)) as [->|Hh].
  - rewrite decide_False by done. by rewrite lookup_insert_eq.
  - case_decide; [done|]. by rewrite lookup_insert_ne.
Qed.

Lemma forEach_lookup headers name :
  name ≠ "__proto__" →
  forEach headers (λ header index o, set_prop o header (val index)) ∅ !! name
  = val <$> last_index headers name.
Proof.
  intros Hname. unfold forEach, last_index.
  rewrite forEach_from_lookup by done.
  by destruct (last_index_from headers name 0 None).
Qed.
End records.

Lemma filled_cell_is_string (row : list string) j :
  ∃ s, cell row j ||| Str "" = Str s.
Proof.
  unfold cell, js_or. destruct (row !! j) as [s|]; simpl; [|by eexists].
  destruct s; simpl; by eexists.
Qed.

Lemma filled_cell_eq (row : list string) j s :
  s ≠ "" → cell row j ||| Str "" = Str s ↔ cell row j = Str s.
Proof.
  intros Hs. unfold cell, js_or. destruct (row !! j) as [[|a t]|]; simpl;
    split; intros H; by simplify_eq.
Qed.

(** The student list does fill the cells a short row lacks. *)
Lemma students_record_filled headers (row : list string) name :
  name ∈ headers → name ≠ "__proto__" →
  ∃ s, forEach headers
         (λ header index student,
            set_prop student header (cell row index ||| Str "")) ∅ !! name
       = Some (Str s).
Proof.
  intros Hin Hname.
  rewrite (forEach_lookup (λ index, cell row index ||| Str "")) by done.
  destruct (last_index_from_elem headers name 0 None Hin) as [j Hj].
  unfold last_index. rewrite Hj. simpl.
  destruct (filled_cell_is_string row j) as [s ->]. by exists s.
Qed.

(** ** Listing *)

Lemma map_filter_commute {A B : Type} (f : A → B) (P : A → Prop) (Q : B → Prop)
    `{!∀ x, Decision (P x), !∀ y, Decision (Q y)} (l : list A) :
  (∀ x, P x ↔ Q (f x)) → map f (filter P l) = filter Q (map f l).
Proof.
  intros HPQ. induction l as [|x l IH]; [done|]. simpl.
  destruct (decide (P x)) as [HP|HP].
  - rewrite filter_cons_True by done.
    rewrite (filter_cons_True Q) by (by apply HPQ). simpl. by rewrite IH.
  - rewrite filter_cons_False by done.
    rewrite (filter_cons_False Q); [done|]. by rewrite <- HPQ.
Qed.

Lemma short_grid_without_data w (g : grid) : length g ≤ 1 → without_data w g.
Proof.
  intros Hlen. unfold without_data, values_of.
  pose proof (rstrip_length is_blank_row
                (map (λ r, rstrip is_empty_cell (take w r)) g)) as H.
  rewrite length_map in H.
  destruct (rstrip is_blank_row _) as [|r rs] eqn:E; [done|].
  simpl. apply bool_decide_eq_true. simpl in H. lia.
Qed.

Lemma list_without_data departmentId list tab width n w (g : grid) :
  (list, tab, width) ∈ list_routes departmentId →
  calm (S n) w →
  sheetsDb w !! (ENTITY_SPREADSHEET_ID, tab) = Some g →
  without_data width g →
  ∃ msg,
    list w = (Ok (Response 200 (Json msg (Some (Objs [])))),
              tick (SheetsValuesGet ENTITY_SPREADSHEET_ID (Columns tab width)) w).
Proof.
  intros Hin Hc Hg Hno. unfold list_routes in Hin. unfold without_data in Hno.
  set_unfold in Hin. destruct Hin as [?|[?|[?|[?|[]]]]]; simplify_eq.
  - unfold Departments.get_list, try_catch, bind.
    rewrite (values_get_columns _ _ _ n w g), Hno by done. by eexists.
  - unfold Employees.get_list, try_catch, bind.
    rewrite (values_get_columns _ _ _ n w g), Hno by done. by eexists.
  - unfold Students.get_list, try_catch, bind.
    rewrite (values_get_columns _ _ _ n w g), Hno by done. by eexists.
  - unfold Students.get_list_by_department, try_catch, bind.
    rewrite (values_get_columns _ _ _ n w g), Hno by done. by eexists.
Qed.

Lemma indexOf_from_missing headers name i :
  name ∉ headers → indexOf_from headers name i = (-1)%Z.
Proof.
  revert i. induction headers as [|h hs IH]; intros i Hin; [done|].
  simpl. apply not_elem_of_cons in Hin as [Hne Hin].
  rewrite decide_False by done. by apply IH.
Qed.

(** With data rows and a [DepartmentID] column named once, the filtered list
    is the list of all students restricted to the department. *)
Lemma students_filtered_run departmentId n w (g : grid) hdr rest j :
  calm (S n) w →
  sheetsDb w !! (ENTITY_SPREADSHEET_ID, "Students") = Some g →
  departmentId ≠ "" →
  values_of 10 g = Some (hdr :: rest) →
  names_once hdr "DepartmentID" j →
  filtered_is_listed_subset w departmentId.
Proof.
  intros Hc Hg Hdep Hv [Hfirst Hlast]. unfold filtered_is_listed_subset.
  destruct (no_data_rows (Some (hdr :: rest))) eqn:Hnd.
  - do 6 eexists. split; [|split].
    + unfold Students.get_list, try_catch, bind.
      rewrite (values_get_columns _ _ _ n w g), Hv, Hnd by done. reflexivity.
    + unfold Students.get_list_by_department, try_catch, bind.
      rewrite (values_get_columns _ _ _ n w g), Hv, Hnd by done. reflexivity.
    + done.
  - do 6 eexists. split; [|split].
    + unfold Students.get_list, try_catch, bind.
      rewrite (values_get_columns _ _ _ n w g), Hv, Hnd by done. reflexivity.
    + unfold Students.get_list_by_department, try_catch, bind.
      rewrite (values_get_columns _ _ _ n w g), Hv, Hnd by done.
      change (default [] (Some (hdr :: rest))) with (hdr :: rest).
      change (default [] ((hdr :: rest) !! 0)) with hdr.
      change (drop 1 (hdr :: rest)) with rest. rewrite Hfirst.
      rewrite decide_False by lia. reflexivity.
    + change (default [] (Some (hdr :: rest))) with (hdr :: rest).
      change (default [] ((hdr :: rest) !! 0)) with hdr.
      change (drop 1 (hdr :: rest)) with rest. rewrite Nat2Z.id.
      apply map_filter_commute. intros row.
      unfold get_prop.
      rewrite (forEach_lookup (λ index, cell row index ||| Str "")) by done.
      rewrite Hlast. simpl. rewrite filled_cell_eq by done.
      unfold strict_eq. by rewrite bool_decide_spec.
Qed.

(** With data rows and no [DepartmentID] column, the filtered list gives up
    with a 500: the guard of the handler. *)
Lemma students_filtered_without_column departmentId n w (g : grid) hdr rest :
  calm (S n) w →
  sheetsDb w !! (ENTITY_SPREADSHEET_ID, "Students") = Some g →
  values_of 10 g = Some (hdr :: rest) → rest ≠ [] →
  "DepartmentID" ∉ hdr →
  ∃ msg w',
    Students.get_list_by_department departmentId w
    = (Ok (Response 500 (Json msg None)), w').
Proof.
  intros Hc Hg Hv Hrest Hhdr.
  unfold Students.get_list_by_department, try_catch, bind.
  rewrite (values_get_columns _ _ _ n w g), Hv by done.
  unfold no_data_rows. rewrite bool_decide_eq_false_2
    by (destruct rest; [done|simpl; lia]).
  change (default [] (Some (hdr :: rest))) with (hdr :: rest).
  change (default [] ((hdr :: rest) !! 0)) with hdr.
  unfold indexOf. rewrite indexOf_from_missing by done.
  rewrite decide_True by done. by do 2 eexists.
Qed.

(** ** Validation *)

Lemma present_cons body name names :
  present body (name :: names) ↔
  truthy (get_prop body name) = true ∧ present body names.
Proof.
  unfold present. split.
  - intros H. split; [apply H; left|]. intros n Hn. apply H. by right.
  - intros [H1 H2] n [->|Hn]%elem_of_cons; auto.
Qed.

Lemma missing_cons body name names :
  missing body (name :: names) ↔
  truthy (get_prop body name) = false ∨ missing body names.
Proof.
  unfold missing. split.
  - intros (n & [->|Hn]%elem_of_cons & H); [by left|right; eauto].
  - intros [H|(n & Hn & H)]; [exists name|exists n]; split; auto; by constructor.
Qed.

Lemma missing_nil body : ¬ missing body [].
Proof. intros (n & Hn & _). by apply elem_of_nil in Hn. Qed.

(** Decide the validation test of a handler from what is known of the
    required fields. *)
Ltac settle_fields :=
  repeat match goal with
    | H : missing _ (_ :: _) |- _ => apply missing_cons in H as [H|H]
    | H : missing _ [] |- _ => by apply missing_nil in H
    | H : present _ (_ :: _) |- _ => apply present_cons in H as [? H]
    | H : truthy ?v = _ |- context [truthy ?v] => rewrite H
    end;
  cbn [negb orb].

Lemma validation_rejects e body file h required needs_file :
  (h, required, needs_file) ∈ validated_routes e body file →
  missing body required ∨ (needs_file = true ∧ file = None) →
  rejects_locally h.
Proof.
  intros Hin Hbad w. unfold validated_routes in Hin. set_unfold in Hin.
  destruct Hin as [?|[?|[?|[?|[?|[?|[?|[?|[?|[?|[?|[?|[]]]]]]]]]]]]];
    simplify_eq;
    [ unfold BusLog.post_start_trip | unfold BusLog.post_end_trip
    | unfold BusLog.post_create_trip | unfold GeneratorLog.post_start_run
    | unfold GeneratorLog.post_end_run | unfold GeneratorLog.post_create_log
    | unfold FileLog.post_register | unfold FileLog.post_forward
    | unfold FileLog.post_receive | unfold Departments.post_create
    | unfold Employees.post_create | unfold Students.post_create ];
    unfold try_catch, ret;
    (destruct Hbad as [Hbad|[? ->]];
     [ settle_fields; rewrite ?orb_true_r; by eexists
     | try done; match goal with
                 | |- context [if ?c then _ else _] => destruct c; by eexists
                 end ]).
Qed.

(** ** Logging a movement *)

Lemma write_cells_nil vals : write_cells vals [] = map shown vals.
Proof. induction vals as [|v vs IH]; [done|]. simpl. by rewrite IH. Qed.

Lemma movement_logged e body h required row n w (g : grid) :
  (h, required, row) ∈ movement_routes e body →
  present body required →
  calm (S n) w →
  sheetsDb w !! (FileLog.SPREADSHEET_ID, "Movements") = Some g →
  ∃ msg w',
    h w = (Ok (Response 200 (Json msg None)), w') ∧
    sheetsDb w'
    = <[(FileLog.SPREADSHEET_ID, "Movements") :=
          rstrip is_blank_row g ++ [map shown row]]> (sheetsDb w) ∧
    faults w' = tail (faults w) ∧
    driveDb w' = driveDb w ∧
    trace w' = trace w
               ++ [SheetsValuesAppend FileLog.SPREADSHEET_ID
                     (Columns "Movements" 9) row].
Proof.
  intros Hin Hp Hc Hg. unfold movement_routes in Hin. set_unfold in Hin.
  destruct Hin as [?|[?|[]]]; simplify_eq;
    [unfold FileLog.post_forward|unfold FileLog.post_receive];
    unfold try_catch, bind; settle_fields;
    rewrite (values_append_run _ _ _ _ n w g) by done;
    rewrite write_cells_nil; by do 2 eexists.
Qed.

(** ** Uploading *)

Lemma upload_copies :
  BusLog.uploadToGoogleDrive = upload_to BusLog.DRIVE_FOLDER_ID ∧
  GeneratorLog.uploadToGoogleDrive = upload_to GeneratorLog.DRIVE_FOLDER_ID ∧
  FileLog.uploadToGoogleDrive = upload_to FileLog.DRIVE_FOLDER_ID.
Proof. done. Qed.

(** The upload never throws, never touches a spreadsheet, and issues Drive
    calls only. *)
Lemma upload_to_effects parent f w :
  (∃ r, (upload_to parent f w).1 = Ok r) ∧
  sheetsDb (upload_to parent f w).2 = sheetsDb w ∧
  Forall (λ c, is_append c = false) (issued w (upload_to parent f w).2).
Proof.
  unfold upload_to, try_catch, bind, drive_files_create, drive_permissions_create,
    remote, issued.
  destruct (faults w) as [|[] [|[] fs]] eqn:E; cbn; rewrite ?E; cbn;
    (split; [by eexists|]); (split; [done|]);
    rewrite <- ?app_assoc, drop_app_length; by repeat constructor.
Qed.

(** It reports failure exactly when Drive rejects one of its two calls. *)
Lemma upload_to_fails parent f w :
  (upload_to parent f w).1 = Ok None ↔ ¬ calm 2 w.
Proof.
  unfold upload_to, try_catch, bind, drive_files_create, drive_permissions_create,
    remote, calm.
  destruct (faults w) as [|[] [|[] fs]] eqn:E; cbn; rewrite ?E; cbn;
    split; intros H; try done; by exfalso; apply H.
Qed.

Lemma upload_to_succeeds parent f w :
  calm 2 w →
  ∃ data w',
    upload_to parent f w = (Ok (Some data), w') ∧
    sheetsDb w' = sheetsDb w ∧
    faults w' = drop 2 (faults w) ∧
    trace w' = trace w
               ++ [DriveFilesCreate parent (originalname f) (mimetype f);
                   DrivePermissionsCreate (data_id data)].
Proof.
  unfold upload_to, try_catch, bind, drive_files_create, drive_permissions_create,
    remote, calm.
  destruct (faults w) as [|[] [|[] fs]] eqn:E; cbn; rewrite ?E; cbn;
    intros H; try done; do 2 eexists;
    (split; [reflexivity|]); cbn; rewrite ?E, <- ?app_assoc; done.
Qed.

Lemma upload_failure_reported e body file h upload required w :
  (h, upload, required) ∈ upload_routes e body file →
  present body required →
  (upload w).1 = Ok None →
  ∃ msg, h w = (Ok (Response 500 (Json msg None)), (upload w).2).
Proof.
  intros Hin Hp Hfail. unfold upload_routes in Hin. set_unfold in Hin.
  destruct Hin as [?|[?|[?|[?|[?|[]]]]]]; simplify_eq;
    [ unfold BusLog.post_start_trip | unfold BusLog.post_end_trip
    | unfold GeneratorLog.post_start_run | unfold GeneratorLog.post_end_run
    | unfold FileLog.post_register ];
    unfold try_catch at 1; unfold bind at 1; settle_fields;
    match goal with
    | H : (?u ?w).1 = Ok None |- _ => destruct (u w) as [o w']; simpl in H; subst o
    end; by eexists.
Qed.

(** ** The status of a file *)

Lemma record_column headers (row : list string) name :
  name ≠ "__proto__" →
  get_prop (forEach headers
              (λ header index logEntry, set_prop logEntry header (cell row index))
              ∅) name
  = column headers row name.
Proof.
  intros Hname. unfold get_prop, column.
  rewrite (forEach_lookup (λ index, cell row index)) by done.
  by destruct (last_index headers name).
Qed.

Lemma get_status_run fileId n w (g : grid) :
  calm (S n) w →
  sheetsDb w !! (FileLog.SPREADSHEET_ID, "Movements") = Some g →
  let rows := default [] (values_of 9 g) in
  let headers := default [] (rows !! 0) in
  let matching := filter (λ row, row !! 1 = Some fileId) (drop 1 rows) in
  let w' := tick (SheetsValuesGet FileLog.SPREADSHEET_ID (Columns "Movements" 9)) w in
  (matching = [] →
   ∃ msg, FileLog.get_status fileId w = (Ok (Response 404 (Json msg None)), w')) ∧
  (∀ latest, last matching = Some latest →
   ∃ details history,
     FileLog.get_status fileId w
     = (Ok (Response 200 (Json "File history retrieved successfully."
              (Some (Details details history)))), w') ∧
     Forall2 (λ row entry, ∀ name, name ≠ "__proto__" →
                            get_prop entry name = column headers row name)
       matching history ∧
     details !! "currentStatus" = Some (column headers latest "Action") ∧
     details !! "currentLocation" = Some (column headers latest "ToDepartment") ∧
     details !! "lastUpdated" = Some (column headers latest "Timestamp")).
Proof.
  intros Hc Hg rows headers matching w'.
  unfold FileLog.get_status, try_catch, bind.
  rewrite (values_get_columns _ _ _ n w g) by done.
  fold rows. fold headers.
  assert (filter (λ row, strict_eq (cell row 1) (Str fileId)) (drop 1 rows)
          = matching) as ->.
  { apply list_filter_iff. intros row. rewrite <- strict_eq_cell.
    by destruct (strict_eq _ _). }
  assert (length rows ≤ 1 → matching = []) as Hshort.
  { intros H. unfold matching. rewrite drop_ge by done. done. }
  split.
  - intros Hnil. case_decide; [by eexists|].
    rewrite Hnil. simpl. by eexists.
  - intros latest Hlast.
    assert (matching ≠ []) as Hne by (by intros E; rewrite E in Hlast).
    case_decide as Hlen; [by apply Hshort in Hlen|].
    case_decide as Hlen'; [by apply length_zero_iff_nil in Hlen'|].
    rewrite length_map, list_lookup_fmap.
    replace (length matching - 1) with (pred (length matching)) by lia.
    rewrite <- last_lookup, Hlast. simpl.
    do 2 eexists. split; [reflexivity|]. split; [|split; [|split]].
    + apply Forall2_fmap_r, Forall_Forall2_diag, Forall_forall.
      intros row _ name Hname. by apply record_column.
    + rewrite !record_column by done. by simplify_map_eq.
    + rewrite !record_column by done. by simplify_map_eq.
    + rewrite !record_column by done. by simplify_map_eq.
Qed.

(** ** Register, forward, receive, then ask for the status *)

Lemma tail_drop {A : Type} (l : list A) k : tail (drop k l) = drop (S k) l.
Proof.
  revert l. induction k as [|k IH]; intros [|x l]; simpl; done.
Qed.

Lemma calm_after k n w w' :
  calm (k + n) w → faults w' = drop k (faults w) → calm n w'.
Proof.
  unfold calm. intros H ->. revert H. generalize (faults w).
  induction k as [|k IH]; intros fs; simpl; [done|].
  destruct fs as [|b fs]; simpl; [by rewrite take_nil|].
  intros [_ H]%andb_prop. by apply IH.
Qed.

Lemma filter_none {A : Type} (P : A → Prop) `{!∀ x, Decision (P x)} (l : list A) :
  (∀ x, x ∈ l → ¬ P x) → filter P l = [].
Proof.
  induction l as [|x l IH]; intros Hall; [done|].
  rewrite filter_cons_False by (apply Hall; left). apply IH.
  intros y Hy. apply Hall. by right.
Qed.

Lemma returned_row_prefix w (r : list string) i s k :
  r !! i = Some s → s ≠ "" → i < w → k ≤ i →
  rstrip is_empty_cell (take w r) !! k = r !! k.
Proof.
  intros Hr Hs Hi Hk.
  assert (take w r !! i = Some s) as Ht by (by apply lookup_take_Some).
  rewrite (rstrip_lookup_before _ _ i s k) by auto using is_empty_cell_false.
  rewrite lookup_take. rewrite decide_True; [done|lia].
Qed.

Lemma register_run e body w (files g : grid) :
  present body ["fileName"; "originatingDepartment"; "createdBy"] →
  calm 4 w →
  sheetsDb w !! (FileLog.SPREADSHEET_ID, "Files") = Some files →
  sheetsDb w !! (FileLog.SPREADSHEET_ID, "Movements") = Some g →
  ∃ r w',
    FileLog.post_register e body w = (Ok r, w') ∧ status r = 201 ∧
    sheetsDb w' !! (FileLog.SPREADSHEET_ID, "Movements")
    = Some (rstrip is_blank_row g
            ++ [map shown [Str (isoNow e); Str (uuid e); Str "REGISTERED"; Str "";
                           get_prop body "originatingDepartment";
                           get_prop body "createdBy"; Str ""; Str "";
                           Str "File created."]]) ∧
    faults w' = drop 4 (faults w).
Proof.
  intros Hp Hc Hfiles Hg.
  unfold FileLog.post_register, try_catch, bind. settle_fields.
  change FileLog.uploadToGoogleDrive with (upload_to FileLog.DRIVE_FOLDER_ID).
  destruct (upload_to_succeeds FileLog.DRIVE_FOLDER_ID
              (FileObject (QrPng (uuid e)) (uuid e +:+ ".png") "image/png") w)
    as (data & wu & -> & Hs & Hfl & _); [apply (calm_weaken 4); [lia|done]|].
  assert (calm 2 wu) as Hcu by (by apply (calm_after 2 2 w)).
  rewrite (values_append_run _ _ _ _ 1 wu files) by (by rewrite ?Hs).
  rewrite (values_append_run _ _ _ _ 0 _ g).
  - do 2 eexists. split; [reflexivity|]. split; [done|]. split.
    + cbn [sheetsDb with_sheets]. rewrite lookup_insert_eq.
      by rewrite write_cells_nil.
    + cbn [faults with_sheets tick]. by rewrite Hfl, !tail_drop.
  - apply (calm_after 3 1 w); [done|].
    cbn [faults with_sheets tick]. by rewrite Hfl, tail_drop.
  - cbn [sheetsDb with_sheets tick]. rewrite lookup_insert_ne by done.
    by rewrite Hs.
Qed.

(** What the service returns for a grid with a header row, some rows that do
    not mention [id], and three appended rows that do. *)
Lemma three_movements_returned (g0 : grid) hdr0 (R1 R2 R3 : list string)
    a1 a2 a3 id :
  g0 !! 0 = Some hdr0 → is_blank_row hdr0 = false →
  (∀ row, row ∈ g0 → row !! 1 ≠ Some id) →
  R1 !! 1 = Some id → R1 !! 2 = Some a1 → a1 ≠ "" →
  R2 !! 1 = Some id → R2 !! 2 = Some a2 → a2 ≠ "" →
  R3 !! 1 = Some id → R3 !! 2 = Some a3 → a3 ≠ "" →
  let f := λ r : list string, rstrip is_empty_cell (take 9 r) in
  ∃ rest,
    values_of 9
      (rstrip is_blank_row
         (rstrip is_blank_row (rstrip is_blank_row g0 ++ [R1]) ++ [R2]) ++ [R3])
    = Some (f hdr0 :: rest) ∧
    filter (λ row, row !! 1 = Some id) rest = [f R1; f R2; f R3].
Proof.
  intros Hh Hhb Hfresh H11 H12 Ha1 H21 H22 Ha2 H31 H32 Ha3 f.
  rewrite (rstrip_snoc _ _ R1) by (by eapply is_blank_row_false).
  rewrite (rstrip_snoc _ _ R2) by (by eapply is_blank_row_false).
  assert (rstrip is_blank_row g0 !! 0 = Some hdr0) as HX.
  { by rewrite (rstrip_lookup_before _ _ 0 hdr0 0). }
  assert (∀ row, row ∈ rstrip is_blank_row g0 → row !! 1 ≠ Some id) as HXfresh.
  { intros row [k Hk]%list_elem_of_lookup_1. apply Hfresh.
    apply rstrip_lookup_Some in Hk. by eapply list_elem_of_lookup_2. }
  destruct (rstrip is_blank_row g0) as [|h X'] eqn:EX; [done|].
  simplify_eq/=.
  assert (∀ R a, R !! 1 = Some id → R !! 2 = Some a → a ≠ "" →
                  f R !! 1 = Some id ∧ is_blank_row (f R) = false) as Hrow.
  { intros R a HR1 HR2 Ha. split.
    - unfold f. by rewrite (returned_row_prefix _ _ 2 a 1) by (done || lia).
    - apply (is_blank_row_false _ 2 a); [|done].
      unfold f. by rewrite (returned_row_prefix _ _ 2 a 2) by (done || lia). }
  destruct (Hrow R1 a1) as [Hf1 _]; [done..|].
  destruct (Hrow R2 a2) as [Hf2 _]; [done..|].
  destruct (Hrow R3 a3) as [Hf3 Hb3]; [done..|].
  exists (map f X' ++ [f R1; f R2; f R3]). split.
  - unfold values_of. fold f.
    replace (hdr0 :: ((X' ++ [R1]) ++ [R2]) ++ [R3])
      with ((hdr0 :: X' ++ [R1; R2]) ++ [R3])
      by (simpl; by rewrite <- !app_assoc).
    rewrite map_app. cbn [map]. rewrite rstrip_snoc by done.
    cbn [app]. rewrite map_app, <- app_assoc. done.
  - rewrite filter_app. rewrite filter_none.
    + simpl. by rewrite !filter_cons_True, filter_nil by done.
    + intros row (r0 & -> & Hr0)%list_elem_of_fmap Hrow1.
      apply returned_row_lookup_Some in Hrow1.
      apply (HXfresh r0); [by right|done].
Qed.

Lemma column_at headers (row : list string) name j w s :
  last_index headers name = Some j → row !! j = Some s → s ≠ "" → j < w →
  column headers (rstrip is_empty_cell (take w row)) name = Str s.
Proof.
  intros Hj Hrow Hs Hw. unfold column, cell. rewrite Hj.
  by rewrite (returned_row_prefix _ _ j s j) , Hrow by (done || lia).
Qed.

Lemma register_forward_receive_status e1 e2 e3 b1 b2 b3 w (files g0 : grid) hdr0 :
  calm 7 w →
  sheetsDb w !! (FileLog.SPREADSHEET_ID, "Files") = Some files →
  sheetsDb w !! (FileLog.SPREADSHEET_ID, "Movements") = Some g0 →
  g0 !! 0 = Some hdr0 →
  last_index (rstrip is_empty_cell (take 9 hdr0)) "Action" = Some 2 →
  (∀ row, row ∈ g0 → row !! 1 ≠ Some (uuid e1)) →
  present b1 ["fileName"; "originatingDepartment"; "createdBy"] →
  present b2 ["fileId"; "fromDepartment"; "toDepartment"; "forwardedBy"] →
  get_prop b2 "fileId" = Str (uuid e1) →
  present b3 ["fileId"; "receivingDepartment"; "receivedBy"] →
  get_prop b3 "fileId" = Str (uuid e1) →
  let w1 := (FileLog.post_register e1 b1 w).2 in
  let w2 := (FileLog.post_forward e2 b2 w1).2 in
  let w3 := (FileLog.post_receive e3 b3 w2).2 in
  ∃ details h1 h2 h3 w4,
    FileLog.get_status (uuid e1) w3
    = (Ok (Response 200 (Json "File history retrieved successfully."
             (Some (Details details [h1; h2; h3])))), w4) ∧
    get_prop h1 "Action" = Str "REGISTERED" ∧
    get_prop h2 "Action" = Str "FORWARDED" ∧
    get_prop h3 "Action" = Str "RECEIVED" ∧
    details !! "currentStatus" = Some (Str "RECEIVED").
Proof.
  intros Hc Hfiles Hg0 Hh Haction Hfresh Hp1 Hp2 Hid2 Hp3 Hid3 w1 w2 w3.
  (* register *)
  destruct (register_run e1 b1 w files g0) as (r1 & w1' & Hr1 & _ & Hm1 & Hf1);
    [done|apply (calm_weaken 7); [lia|done]|done|done|].
  assert (w1 = w1') as -> by (unfold w1; by rewrite Hr1).
  (* forward *)
  assert (calm 1 w1') as Hc1'.
  { apply (calm_after 4 1 w); [|done]. apply (calm_weaken 7); [lia|done]. }
  destruct (movement_logged e2 b2 (FileLog.post_forward e2 b2) _ _ 0 w1' _
              ltac:(left) Hp2 Hc1' Hm1) as (m2 & w2' & Hr2 & Hs2 & Hf2 & _).
  assert (w2 = w2') as -> by (unfold w2; by rewrite Hr2).
  (* receive *)
  assert (calm 1 w2') as Hc2'.
  { apply (calm_after 5 1 w); [apply (calm_weaken 7); [lia|done]|].
    by rewrite Hf2, Hf1, tail_drop. }
  assert (sheetsDb w2' !! (FileLog.SPREADSHEET_ID, "Movements") = Some _) as Hm2
    by (by rewrite Hs2, lookup_insert_eq).
  destruct (movement_logged e3 b3 (FileLog.post_receive e3 b3) _ _ 0 w2' _
              ltac:(right; left) Hp3 Hc2' Hm2) as (m3 & w3' & Hr3 & Hs3 & Hf3 & _).
  assert (w3 = w3') as -> by (unfold w3; by rewrite Hr3).
  assert (calm 1 w3') as Hc3'.
  { apply (calm_after 6 1 w); [apply (calm_weaken 7); [lia|done]|].
    by rewrite Hf3, Hf2, Hf1, !tail_drop. }
  assert (sheetsDb w3' !! (FileLog.SPREADSHEET_ID, "Movements") = Some _) as Hm3
    by (by rewrite Hs3, lookup_insert_eq).
  (* what the sheet returns now *)
  assert (hdr0 !! 2 = Some "Action") as Hh2.
  { apply last_index_Some in Haction. by apply returned_row_lookup_Some in Haction. }
  rewrite Hid2, Hid3 in *.
  match type of Hm3 with
  | _ = Some (rstrip _ (rstrip _ (_ ++ [?R1]) ++ [?R2]) ++ [?R3]) =>
      destruct (three_movements_returned g0 hdr0 R1 R2 R3
                  "REGISTERED" "FORWARDED" "RECEIVED" (uuid e1))
        as (rest & Hv & Hfilter); try done;
      [by apply (is_blank_row_false _ 2 "Action")|];
      pose proof (column_at (rstrip is_empty_cell (take 9 hdr0)) R1 "Action" 2 9
                    "REGISTERED" Haction eq_refl ltac:(done) ltac:(lia)) as Hc1;
      pose proof (column_at (rstrip is_empty_cell (take 9 hdr0)) R2 "Action" 2 9
                    "FORWARDED" Haction eq_refl ltac:(done) ltac:(lia)) as Hc2;
      pose proof (column_at (rstrip is_empty_cell (take 9 hdr0)) R3 "Action" 2 9
                    "RECEIVED" Haction eq_refl ltac:(done) ltac:(lia)) as Hc3
  end.
  (* the status *)
  destruct (get_status_run (uuid e1) 0 w3' _ Hc3' Hm3) as [_ Hstatus].
  rewrite Hv in Hstatus.
  change (default [] (Some (?x :: rest))) with (x :: rest) in Hstatus.
  change (drop 1 (?x :: rest)) with rest in Hstatus.
  change (default [] ((?x :: rest) !! 0)) with x in Hstatus.
  rewrite Hfilter in Hstatus.
  destruct (Hstatus _ eq_refl) as (details & history & Hrun & Hall & Hcur & _).
  apply Forall2_cons_inv_l in Hall as (h1 & hist1 & H1 & Hall & ->).
  apply Forall2_cons_inv_l in Hall as (h2 & hist2 & H2 & Hall & ->).
  apply Forall2_cons_inv_l in Hall as (h3 & hist3 & H3 & Hall & ->).
  apply Forall2_nil_inv_l in Hall as ->.
  exists details, h1, h2, h3. eexists. split; [exact Hrun|].
  rewrite H1, H2, H3 by done.
  by rewrite Hcur, Hc1, Hc2, Hc3.
Qed.

(** * The claims *)

(** ** C6: finding a row by its key *)

(** C6.  The find-row-by-key operation scans column A from the top and
    returns the 1-based index of the first row whose first cell equals the
    key (the header row is row 1), and -1 when no row matches.  First for the
    scan over any rows the service returns, then for the operation itself in
    the three entity modules, over the grid of the tab; there the key is a
    route parameter, which Express never leaves empty. *)
Theorem findRowIndexById_first_match :
  (∀ (rows : grid) id,
     (∀ i, first_match rows id i →
           scan_column_A rows id 0 = (Z.of_nat i + 1)%Z) ∧
     (no_match rows id → scan_column_A rows id 0 = (-1)%Z)) ∧
  (∀ find tab id w (g : grid),
     find ∈ [Departments.findRowIndexById; Employees.findRowIndexById;
             Students.findRowIndexById] →
     calm 1 w →
     sheetsDb w !! (ENTITY_SPREADSHEET_ID, tab) = Some g →
     id ≠ "" →
     (∀ i, first_match g id i → (find tab id w).1 = Ok (Z.of_nat i + 1)%Z) ∧
     (no_match g id → (find tab id w).1 = Ok (-1)%Z)).
Proof.
  split.
  - intros rows id. split.
    + intros i Hi. by rewrite (scan_column_A_found rows id 0 i).
    + apply scan_column_A_missing.
  - intros find tab id w g Hin Hc Hg Hid.
    assert (find = Departments.findRowIndexById) as ->.
    { set_unfold in Hin. destruct Hin as [->|[->|[->|[]]]]; done. }
    split.
    + intros i Hi. by rewrite (findRowIndexById_found tab id 0 w g i).
    + intros Hno. by rewrite (findRowIndexById_missing tab id 0 w g).
Qed.

Lemma findRowIndexById_first_match_witness :
  (Students.findRowIndexById "Students" "s2" sample_world).1 = Ok 3%Z.
Proof.
  apply (proj1 (proj2 findRowIndexById_first_match
                  Students.findRowIndexById "Students" "s2" sample_world
                  sample_students
                  ltac:(set_solver) eq_refl eq_refl ltac:(done)) 2).
  split.
  - eexists. split; reflexivity.
  - intros k row Hk Hrow.
    destruct k as [|[|k]]; [| |lia]; vm_compute in Hrow; by simplify_eq.
Defined.

(** ** C1: the merge update *)

(** C1.  For every record found by its key, the merge update of the three
    entity tables issues exactly one write, to the row where the key was
    found, and the row it hands to [values.update] holds: the key in column
    A, which is what that column held; in each field column the supplied
    value when that value is truthy (for a string: non-empty) and the value
    read from the existing cell otherwise; the value read from the existing
    created-at cell; and the current time in the updated-at column.  The
    three remote calls of the handler are taken to be served; what the
    service makes of the written values is not part of the statement. *)
Theorem merge_update_merges update tab fields e id body w (g : grid) i :
  (update, tab, fields) ∈ entity_tables →
  calm 3 w →
  sheetsDb w !! (ENTITY_SPREADSHEET_ID, tab) = Some g →
  id ≠ "" →
  first_match g id i →
  ∃ r w' existingData updatedRow,
    update e id body w = (Ok r, w') ∧ status r = 200 ∧
    values_of (length fields + 3) (take 1 (drop i g)) = Some [existingData] ∧
    issued w w'
    = [SheetsValuesGet ENTITY_SPREADSHEET_ID (Columns tab 1);
       SheetsValuesGet ENTITY_SPREADSHEET_ID
         (RowOf tab (Z.of_nat i + 1) (length fields + 3));
       SheetsValuesUpdate ENTITY_SPREADSHEET_ID
         (RowOf tab (Z.of_nat i + 1) (length fields + 3)) updatedRow] ∧
    length updatedRow = length fields + 3 ∧
    updatedRow !! 0 = Some (Str id) ∧
    cell existingData 0 = Str id ∧
    (∀ j f, fields !! j = Some f →
       (truthy (get_prop body f) = true →
        updatedRow !! S j = Some (get_prop body f)) ∧
       (truthy (get_prop body f) = false →
        updatedRow !! S j = Some (cell existingData (S j)))) ∧
    updatedRow !! S (length fields)
    = Some (cell existingData (S (length fields))) ∧
    updatedRow !! S (S (length fields)) = Some (Str (isoNow e)).
Proof.
  intros Hin Hc Hg Hid Hm.
  destruct (update_run_calls update tab fields e id body w g i Hin Hc Hg Hid Hm)
    as (row & r & w' & Hrow & Hcell & Hrun & Hst & Hcalls).
  set (existingData := rstrip is_empty_cell (take (length fields + 3) row)) in *.
  exists r, w', existingData, (updated_row fields e id body existingData).
  split; [done|]. split; [done|].
  split; [by apply (values_of_found_row _ g i row id); [lia|..]|].
  split; [done|]. unfold updated_row.
  split; [simpl; rewrite length_app, length_imap; simpl; lia|].
  split; [done|].
  split.
  { unfold cell, existingData.
    by rewrite (returned_row_keeps _ row 0 id) by (done || lia). }
  split; [|split].
  - intros j f Hf. rewrite lookup_cons_ne_0 by done. simpl.
    rewrite lookup_app_l by (rewrite length_imap; by eapply lookup_lt_Some).
    rewrite list_lookup_imap, Hf. simpl. unfold js_or.
    split; intros ->; done.
  - rewrite lookup_cons_ne_0 by done. simpl.
    rewrite lookup_app_r by (rewrite length_imap; lia).
    by rewrite length_imap, Nat.sub_diag.
  - rewrite lookup_cons_ne_0 by done. simpl.
    rewrite lookup_app_r by (rewrite length_imap; lia).
    rewrite length_imap. by replace (S (length fields) - length fields) with 1 by lia.
Qed.

Lemma merge_update_merges_witness :
  ∃ r w' existingData updatedRow,
    Students.post_update sample_env "s2"
      {[ "course" := Str "BA"; "email" := Str "" ]} sample_world = (Ok r, w') ∧
    status r = 200 ∧
    values_of (7 + 3) (take 1 (drop 2 sample_students)) = Some [existingData] ∧
    issued sample_world w'
    = [SheetsValuesGet ENTITY_SPREADSHEET_ID (Columns "Students" 1);
       SheetsValuesGet ENTITY_SPREADSHEET_ID (RowOf "Students" (Z.of_nat 2 + 1) (7 + 3));
       SheetsValuesUpdate ENTITY_SPREADSHEET_ID
         (RowOf "Students" (Z.of_nat 2 + 1) (7 + 3)) updatedRow] ∧
    length updatedRow = 7 + 3 ∧
    updatedRow !! 0 = Some (Str "s2") ∧
    cell existingData 0 = Str "s2" ∧
    (∀ j f,
       ["studentName"; "rollNumber"; "departmentId"; "course"; "yearOfStudy";
        "email"; "phone"] !! j = Some f →
       (truthy (get_prop {[ "course" := Str "BA"; "email" := Str "" ]} f) = true →
        updatedRow !! S j
        = Some (get_prop {[ "course" := Str "BA"; "email" := Str "" ]} f)) ∧
       (truthy (get_prop {[ "course" := Str "BA"; "email" := Str "" ]} f) = false →
        updatedRow !! S j = Some (cell existingData (S j)))) ∧
    updatedRow !! S 7 = Some (cell existingData (S 7)) ∧
    updatedRow !! S (S 7) = Some (Str (isoNow sample_env)).
Proof.
  apply (merge_update_merges Students.post_update "Students" _ sample_env "s2"
           {[ "course" := Str "BA"; "email" := Str "" ]} sample_world
           sample_students 2
           ltac:(do 2 apply list_elem_of_further; apply list_elem_of_here)
           eq_refl eq_refl ltac:(done)).
  split.
  - eexists. split; reflexivity.
  - intros k row Hk Hrow.
    destruct k as [|[|k]]; [| |lia]; vm_compute in Hrow; by simplify_eq.
Defined.

(** ** C3: updating a key that is not there *)

(** C3.  When the key occurs in no row of column A, the merge update writes
    nothing: the spreadsheets after the call are the spreadsheets before it,
    and the one remote call issued is the read of column A.  When that read
    is served the answer is 404. *)
Theorem update_of_absent_key_is_not_found update tab fields e id body w (g : grid) :
  (update, tab, fields) ∈ entity_tables →
  sheetsDb w !! (ENTITY_SPREADSHEET_ID, tab) = Some g →
  no_match g id →
  sheetsDb (update e id body w).2 = sheetsDb w ∧
  (calm 1 w → ∃ msg, (update e id body w).1 = Ok (Response 404 (Json msg None))) ∧
  issued w (update e id body w).2
  = [SheetsValuesGet ENTITY_SPREADSHEET_ID (Columns tab 1)].
Proof. apply update_missing_key. Qed.

Lemma update_of_absent_key_is_not_found_witness :
  sheetsDb (Departments.post_update sample_env "d9"
              {[ "location" := Str "Block C" ]} sample_world).2
  = sheetsDb sample_world ∧
  ∃ msg, (Departments.post_update sample_env "d9"
            {[ "location" := Str "Block C" ]} sample_world).1
         = Ok (Response 404 (Json msg None)).
Proof.
  destruct (update_of_absent_key_is_not_found Departments.post_update
              "Departments" _ sample_env "d9" {[ "location" := Str "Block C" ]}
              sample_world sample_departments
              ltac:(apply list_elem_of_here) eq_refl)
    as (Hsame & H404 & _).
  - intros row Hrow. unfold sample_departments in Hrow. set_unfold in Hrow.
    destruct Hrow as [->|[->|[->|[]]]]; done.
  - split; [exact Hsame|]. by apply H404.
Defined.

(** ** C2: rows shorter than the header *)

(** C2, at a failing input.  The Departments tab holds a row with two cells
    under a header of seven.  The department list answers with a record for
    that row whose [Description] (and every later field) is [undefined], not
    the empty string; serialised, those fields are absent. *)
Theorem departments_list_leaves_short_row_undefined :
  ∃ full short w',
    Departments.get_list sample_world
    = (Ok (Response 200 (Json "Departments retrieved successfully."
             (Some (Objs [full; short])))), w') ∧
    "Description" ∈ departments_header ∧
    short !! "DepartmentName" = Some (Str "Maths") ∧
    short !! "Description" = Some Undefined ∧
    short !! "UpdatedAt" = Some Undefined.
Proof.
  do 3 eexists. split; [vm_compute; reflexivity|].
  split; [unfold departments_header; set_solver|].
  by vm_compute.
Qed.

(** The student list, which guards the read with [|| ''], does what the
    claim says: every column the header names is mapped to a string. *)
Lemma students_list_fills_short_rows n w (g : grid) rows :
  calm (S n) w →
  sheetsDb w !! (ENTITY_SPREADSHEET_ID, "Students") = Some g →
  values_of 10 g = Some rows →
  1 < length rows →
  ∃ msg records w',
    Students.get_list w = (Ok (Response 200 (Json msg (Some (Objs records)))), w') ∧
    length records = length rows - 1 ∧
    ∀ record name,
      record ∈ records → name ∈ default [] (rows !! 0) → name ≠ "__proto__" →
      ∃ s, record !! name = Some (Str s).
Proof.
  intros Hc Hg Hv Hlen. unfold Students.get_list, try_catch, bind.
  rewrite (values_get_columns _ _ _ n w g), Hv by done.
  unfold no_data_rows. rewrite bool_decide_eq_false_2 by lia.
  do 3 eexists. split; [reflexivity|]. split.
  - rewrite length_map, length_drop. done.
  - intros record name (row & -> & _)%list_elem_of_fmap Hname Hproto.
    by apply students_record_filled.
Qed.

(** ** C4: the status of a file *)

(** C4.  The status operation keeps the Movements rows under the header
    whose second cell is the given file id, answers 404 when there is none,
    and otherwise reads the current status and location off the last of
    them in table order, with one history entry per matching row, in that
    order.  In particular, on a Movements tab whose header names [Action] as
    column C only and on which the fresh id does not occur, register, forward
    and receive followed by status give a history of three entries, in call
    order, and [currentStatus] is [RECEIVED].  The remote calls are taken to
    be served. *)
Theorem status_reports_last_movement :
  (∀ fileId w (g : grid),
     calm 1 w →
     sheetsDb w !! (FileLog.SPREADSHEET_ID, "Movements") = Some g →
     let rows := default [] (values_of 9 g) in
     let headers := default [] (rows !! 0) in
     let matching := filter (λ row, row !! 1 = Some fileId) (drop 1 rows) in
     (matching = [] →
      ∃ msg w', FileLog.get_status fileId w
                = (Ok (Response 404 (Json msg None)), w')) ∧
     (∀ latest, last matching = Some latest →
      ∃ details history w',
        FileLog.get_status fileId w
        = (Ok (Response 200 (Json "File history retrieved successfully."
                 (Some (Details details history)))), w') ∧
        Forall2 (λ row entry, ∀ name, name ≠ "__proto__" →
                               get_prop entry name = column headers row name)
          matching history ∧
        details !! "currentStatus" = Some (column headers latest "Action") ∧
        details !! "currentLocation"
        = Some (column headers latest "ToDepartment"))) ∧
  (∀ e1 e2 e3 b1 b2 b3 w (files g0 : grid) hdr0,
     calm 7 w →
     sheetsDb w !! (FileLog.SPREADSHEET_ID, "Files") = Some files →
     sheetsDb w !! (FileLog.SPREADSHEET_ID, "Movements") = Some g0 →
     g0 !! 0 = Some hdr0 →
     last_index (rstrip is_empty_cell (take 9 hdr0)) "Action" = Some 2 →
     (∀ row, row ∈ g0 → row !! 1 ≠ Some (uuid e1)) →
     present b1 ["fileName"; "originatingDepartment"; "createdBy"] →
     present b2 ["fileId"; "fromDepartment"; "toDepartment"; "forwardedBy"] →
     get_prop b2 "fileId" = Str (uuid e1) →
     present b3 ["fileId"; "receivingDepartment"; "receivedBy"] →
     get_prop b3 "fileId" = Str (uuid e1) →
     let w1 := (FileLog.post_register e1 b1 w).2 in
     let w2 := (FileLog.post_forward e2 b2 w1).2 in
     let w3 := (FileLog.post_receive e3 b3 w2).2 in
     ∃ details h1 h2 h3 w4,
       FileLog.get_status (uuid e1) w3
       = (Ok (Response 200 (Json "File history retrieved successfully."
                (Some (Details details [h1; h2; h3])))), w4) ∧
       get_prop h1 "Action" = Str "REGISTERED" ∧
       get_prop h2 "Action" = Str "FORWARDED" ∧
       get_prop h3 "Action" = Str "RECEIVED" ∧
       details !! "currentStatus" = Some (Str "RECEIVED")).
Proof.
  split.
  - intros fileId w g Hc Hg rows headers matching.
    destruct (get_status_run fileId 0 w g Hc Hg) as [Hnone Hsome]. split.
    + intros Hm. destruct (Hnone Hm) as [msg Hrun]. by do 2 eexists.
    + intros latest Hlast.
      destruct (Hsome latest Hlast) as (d & h & Hrun & Hall & Hcs & Hcl & _).
      by exists d, h; eexists.
  - apply register_forward_receive_status.
Qed.

Lemma present_intro body names :
  forallb (λ name, truthy (get_prop body name)) names = true → present body names.
Proof.
  intros H name Hin. rewrite forallb_forall in H. apply H.
  by apply list_elem_of_In.
Qed.

Lemma status_reports_last_movement_witness :
  ∃ details h1 h2 h3 w4,
    FileLog.get_status (uuid sample_env)
      (FileLog.post_receive later_env receive_request
         (FileLog.post_forward later_env forward_request
            (FileLog.post_register sample_env register_request sample_world).2).2).2
    = (Ok (Response 200 (Json "File history retrieved successfully."
             (Some (Details details [h1; h2; h3])))), w4) ∧
    get_prop h1 "Action" = Str "REGISTERED" ∧
    get_prop h2 "Action" = Str "FORWARDED" ∧
    get_prop h3 "Action" = Str "RECEIVED" ∧
    details !! "currentStatus" = Some (Str "RECEIVED").
Proof.
  apply (proj2 status_reports_last_movement
           sample_env later_env later_env
           register_request forward_request receive_request sample_world
           [files_header] [movements_header] movements_header).
  - reflexivity.
  - reflexivity.
  - reflexivity.
  - reflexivity.
  - vm_compute. reflexivity.
  - intros row Hrow Hcell. set_unfold in Hrow. destruct Hrow as [->|[]].
    vm_compute in Hcell. discriminate Hcell.
  - apply present_intro. vm_compute. reflexivity.
  - apply present_intro. vm_compute. reflexivity.
  - vm_compute. reflexivity.
  - apply present_intro. vm_compute. reflexivity.
  - vm_compute. reflexivity.
Defined.

(** ** C5: the filtered list *)

(** C5 as stated fails.  On a Students tab whose header has no
    [DepartmentID] column, with one data row and every call served, the list
    of all students answers 200 with one record while the filtered list
    answers 500: it is not the matching part of the full list. *)
Lemma filtered_list_needs_the_column :
  calm 1 headless_students_world ∧
  (∃ record w', Students.get_list headless_students_world
                = (Ok (Response 200 (Json "Students retrieved successfully."
                         (Some (Objs [record])))), w')) ∧
  status <$> (match (Students.get_list_by_department "d1"
                       headless_students_world).1 with
              | Ok r => Some r
              | Thrown _ => None
              end) = Some 500 ∧
  ¬ filtered_is_listed_subset headless_students_world "d1".
Proof.
  split; [reflexivity|]. split; [do 2 eexists; vm_compute; reflexivity|].
  split; [vm_compute; reflexivity|].
  intros (msg1 & msg2 & all & sub & w1 & w2 & _ & H & _).
  vm_compute in H. discriminate H.
Qed.

(** Why the amended statement asks for a single [DepartmentID] column: the
    filter reads the first column of that name, the record keeps the last. *)
Lemma filtered_list_reads_first_named_column :
  ¬ filtered_is_listed_subset twice_named_students_world "d1".
Proof.
  intros (msg1 & msg2 & all & sub & w1 & w2 & Hall & Hsub & Heq).
  vm_compute in Hall. vm_compute in Hsub. simplify_eq.
Qed.

(** Why it asks for a non-empty value (which a route parameter always is):
    list-all shows a missing cell as [''], the filter compares the missing
    cell itself. *)
Lemma filtered_list_misses_filled_cells :
  ¬ filtered_is_listed_subset unassigned_student_world "".
Proof.
  intros (msg1 & msg2 & all & sub & w1 & w2 & Hall & Hsub & Heq).
  vm_compute in Hall. vm_compute in Hsub. simplify_eq.
Qed.

(** C5, amended.  When the header row names [DepartmentID] exactly once (or
    there are no data rows), the value is not empty (it is a route
    parameter) and the read is served, the filtered list is exactly the part
    of the full list whose [DepartmentID] equals the value, in the same
    order. *)
Theorem filtered_list_is_sublist departmentId w (g : grid) :
  calm 1 w →
  sheetsDb w !! (ENTITY_SPREADSHEET_ID, "Students") = Some g →
  departmentId ≠ "" →
  (without_data 10 g ∨
   ∃ hdr rest j, values_of 10 g = Some (hdr :: rest) ∧
                 names_once hdr "DepartmentID" j) →
  filtered_is_listed_subset w departmentId.
Proof.
  intros Hc Hg Hdep [Hno|(hdr & rest & j & Hv & Hj)].
  - destruct (list_without_data departmentId Students.get_list "Students" 10 0
                w g ltac:(unfold list_routes; set_solver) Hc Hg Hno) as [m1 H1].
    destruct (list_without_data departmentId
                (Students.get_list_by_department departmentId) "Students" 10 0
                w g ltac:(unfold list_routes; set_solver) Hc Hg Hno) as [m2 H2].
    unfold filtered_is_listed_subset. by do 6 eexists.
  - by eapply (students_filtered_run departmentId 0).
Qed.

Lemma filtered_list_is_sublist_witness :
  filtered_is_listed_subset sample_world "d1".
Proof.
  apply (filtered_list_is_sublist "d1" sample_world sample_students
           eq_refl eq_refl ltac:(done)).
  right. exists students_header, (drop 1 sample_students), 3.
  split; [vm_compute; reflexivity|]. split; vm_compute; reflexivity.
Defined.

(** ** C7: validation comes first *)

(** C7.  A request that lacks a required field, or the attachment a route
    requires, is answered 400 with the world untouched: no upload, no read
    and no append is issued, for any of the twelve validating routes. *)
Theorem validation_precedes_remote_calls e body file h required needs_file :
  (h, required, needs_file) ∈ validated_routes e body file →
  missing body required ∨ (needs_file = true ∧ file = None) →
  ∀ w, ∃ msg, h w = (Ok (Response 400 (Json msg None)), w).
Proof. apply validation_rejects. Qed.

Lemma validation_precedes_remote_calls_witness :
  (∃ msg, BusLog.post_start_trip sample_env {[ "tripId" := Str "T-1" ]}
            (Some sample_photo) sample_world
          = (Ok (Response 400 (Json msg None)), sample_world)) ∧
  (∃ msg, BusLog.post_start_trip sample_env
            {[ "tripId" := Str "T-1"; "startingKm" := Str "1200" ]}
            None sample_world
          = (Ok (Response 400 (Json msg None)), sample_world)).
Proof.
  split.
  - apply (validation_precedes_remote_calls sample_env
             {[ "tripId" := Str "T-1" ]} (Some sample_photo) _ _ _
             ltac:(apply list_elem_of_here)).
    left. exists "startingKm". split; [set_solver|reflexivity].
  - apply (validation_precedes_remote_calls sample_env
             {[ "tripId" := Str "T-1"; "startingKm" := Str "1200" ]} None _ _ _
             ltac:(apply list_elem_of_here)).
    by right.
Defined.

(** ** C8: forwarding and receiving do not look the file up *)

(** C8.  With its required fields present and the append served, forward
    (and likewise receive) answers 200 and leaves the Movements tab with
    exactly one more row, the one it built from the request.  Nothing is
    assumed of the Files tab, and the append is the only remote call the
    handler issues: the file id is never looked up. *)
Theorem movement_is_logged_unchecked e body h required row w (g : grid) :
  (h, required, row) ∈ movement_routes e body →
  present body required →
  calm 1 w →
  sheetsDb w !! (FileLog.SPREADSHEET_ID, "Movements") = Some g →
  ∃ msg w',
    h w = (Ok (Response 200 (Json msg None)), w') ∧
    sheetsDb w'
    = <[(FileLog.SPREADSHEET_ID, "Movements") :=
          rstrip is_blank_row g ++ [map shown row]]> (sheetsDb w) ∧
    issued w w'
    = [SheetsValuesAppend FileLog.SPREADSHEET_ID (Columns "Movements" 9) row].
Proof.
  intros Hin Hp Hc Hg.
  destruct (movement_logged e body h required row 0 w g Hin Hp Hc Hg)
    as (msg & w' & Hrun & Hdb & _ & _ & Htrace).
  exists msg, w'. split; [done|]. split; [done|]. by apply issued_ticks.
Qed.

Lemma movement_is_logged_unchecked_witness :
  ∃ msg w',
    FileLog.post_forward later_env forward_request sample_world
    = (Ok (Response 200 (Json msg None)), w') ∧
    sheetsDb w' !! (FileLog.SPREADSHEET_ID, "Movements")
    = Some [movements_header;
            ["2024-03-02T10:00:00.000Z"; uuid sample_env; "FORWARDED";
             "Accounts"; "Audit"; "e7"; ""; ""; ""]] ∧
    sheetsDb w' !! (FileLog.SPREADSHEET_ID, "Files") = Some [files_header].
Proof.
  destruct (movement_is_logged_unchecked later_env forward_request _ _ _
              sample_world [movements_header] ltac:(apply list_elem_of_here))
    as (msg & w' & Hrun & Hdb & _).
  - apply present_intro. vm_compute. reflexivity.
  - reflexivity.
  - reflexivity.
  - exists msg, w'. split; [exact Hrun|]. rewrite Hdb. split.
    + rewrite lookup_insert_eq. vm_compute. reflexivity.
    + rewrite lookup_insert_ne by done. reflexivity.
Defined.

(** ** C9: a failed upload *)

(** C9.  When the upload helper reports failure, the handler answers 500
    and no row is appended: the spreadsheets are as before and none of the
    calls issued is an append.  This covers the start and end routes of the
    bus and generator logs and the registration of a file. *)
Theorem failed_upload_appends_nothing e body file h upload required w :
  (h, upload, required) ∈ upload_routes e body file →
  present body required →
  (upload w).1 = Ok None →
  ∃ msg w',
    h w = (Ok (Response 500 (Json msg None)), w') ∧
    sheetsDb w' = sheetsDb w ∧
    Forall (λ c, is_append c = false) (issued w w').
Proof.
  intros Hin Hp Hfail.
  destruct (upload_failure_reported e body file h upload required w Hin Hp Hfail)
    as [msg Hrun].
  exists msg, (upload w).2. split; [done|].
  assert (∃ parent f, upload = upload_to parent f) as (parent & f & ->).
  { unfold upload_routes in Hin. set_unfold in Hin.
    destruct Hin as [?|[?|[?|[?|[?|[]]]]]]; simplify_eq; by do 2 eexists. }
  destruct (upload_to_effects parent f w) as (_ & Hdb & Hcalls). by split.
Qed.

Lemma failed_upload_appends_nothing_witness :
  ∃ msg w',
    BusLog.post_start_trip sample_env
      {[ "tripId" := Str "T-1"; "startingKm" := Str "1200" ]}
      (Some sample_photo) drive_down_world
    = (Ok (Response 500 (Json msg None)), w') ∧
    sheetsDb w' = sheetsDb drive_down_world ∧
    Forall (λ c, is_append c = false) (issued drive_down_world w').
Proof.
  apply (failed_upload_appends_nothing sample_env
           {[ "tripId" := Str "T-1"; "startingKm" := Str "1200" ]}
           sample_photo _ _ _ drive_down_world
           ltac:(apply list_elem_of_here)).
  - apply present_intro. vm_compute. reflexivity.
  - vm_compute. reflexivity.
Defined.

(** ** C10: listing a table without data rows *)

(** C10.  On a tab that is empty or holds nothing under its header row, each
    list route (all departments, all employees, all students, the students
    of a department) answers 200 with an empty array, when its read is
    served. *)
Theorem list_of_nothing_is_empty departmentId list tab width w (g : grid) :
  (list, tab, width) ∈ list_routes departmentId →
  calm 1 w →
  sheetsDb w !! (ENTITY_SPREADSHEET_ID, tab) = Some g →
  without_data width g →
  ∃ msg w', list w = (Ok (Response 200 (Json msg (Some (Objs [])))), w').
Proof.
  intros Hin Hc Hg Hno.
  destruct (list_without_data departmentId list tab width 0 w g Hin Hc Hg Hno)
    as [msg Hrun].
  by exists msg; eexists.
Qed.

Lemma list_of_nothing_is_empty_witness :
  ∃ msg w', Employees.get_list sample_world
            = (Ok (Response 200 (Json msg (Some (Objs [])))), w').
Proof.
  apply (list_of_nothing_is_empty "d1" Employees.get_list "Employees" 9
           sample_world []
           ltac:(apply list_elem_of_further; apply list_elem_of_here)
           eq_refl eq_refl).
  apply short_grid_without_data. simpl. lia.
Defined.

(** * Further properties *)

(** ** Creating an entity *)

Lemma create_run e body h tab width required idkey n w (g : grid) :
  (h, tab, width, required, idkey) ∈ create_routes e body →
  present body required →
  calm (S n) w →
  sheetsDb w !! (ENTITY_SPREADSHEET_ID, tab) = Some g →
  ∃ msg data row vals,
    h w = (Ok (Response 201 (Json msg (Some (Obj data)))),
           with_sheets (<[(ENTITY_SPREADSHEET_ID, tab) :=
                            rstrip is_blank_row g ++ [row]]> (sheetsDb w))
             (tick (SheetsValuesAppend ENTITY_SPREADSHEET_ID (Columns tab width)
                      vals) w)) ∧
    data !! idkey = Some (Str (uuid e)) ∧
    length row = width ∧
    row !! 0 = Some (uuid e) ∧
    row !! (width - 2) = Some (isoNow e) ∧
    row !! (width - 1) = Some (isoNow e).
Proof.
  intros Hin Hp Hc Hg. unfold create_routes in Hin. set_unfold in Hin.
  destruct Hin as [?|[?|[?|[]]]]; simplify_eq;
    [ unfold Departments.post_create | unfold Employees.post_create
    | unfold Students.post_create ];
    unfold try_catch, bind; settle_fields;
    rewrite (values_append_run _ _ _ _ n w g) by done;
    rewrite write_cells_nil; do 4 eexists;
    (split; [reflexivity|]); (split; [by simplify_map_eq|]); done.
Qed.

(** X1.  A create request with its required fields, once the append is
    served, is answered 201 with the new identifier, and the tab gains one
    row that carries that identifier in column A and the same timestamp in
    its created-at and updated-at columns; the append is the only remote
    call. *)
Theorem create_appends_identified_row e body h tab width required idkey w
    (g : grid) :
  (h, tab, width, required, idkey) ∈ create_routes e body →
  present body required →
  calm 1 w →
  sheetsDb w !! (ENTITY_SPREADSHEET_ID, tab) = Some g →
  ∃ msg data row w',
    h w = (Ok (Response 201 (Json msg (Some (Obj data)))), w') ∧
    data !! idkey = Some (Str (uuid e)) ∧
    sheetsDb w'
    = <[(ENTITY_SPREADSHEET_ID, tab) := rstrip is_blank_row g ++ [row]]>
        (sheetsDb w) ∧
    length row = width ∧
    row !! 0 = Some (uuid e) ∧
    row !! (width - 2) = Some (isoNow e) ∧
    row !! (width - 1) = Some (isoNow e) ∧
    length (issued w w') = 1.
Proof.
  intros Hin Hp Hc Hg.
  destruct (create_run e body h tab width required idkey 0 w g Hin Hp Hc Hg)
    as (msg & data & row & vals & Hrun & Hid & Hlen & H0 & H1 & H2).
  exists msg, data, row. eexists. split; [exact Hrun|].
  repeat (split; [done|]).
  unfold issued. cbn [trace with_sheets tick]. by rewrite drop_app_length.
Qed.

Lemma create_appends_identified_row_witness :
  ∃ msg data row w',
    Students.post_create sample_env
      {[ "studentName" := Str "Kiran"; "rollNumber" := Str "R-04";
         "departmentId" := Str "d2"; "course" := Str "BSc";
         "yearOfStudy" := Num 1 ]} sample_world
    = (Ok (Response 201 (Json msg (Some (Obj data)))), w') ∧
    data !! "studentId" = Some (Str (uuid sample_env)) ∧
    sheetsDb w'
    = <[(ENTITY_SPREADSHEET_ID, "Students") :=
          rstrip is_blank_row sample_students ++ [row]]> (sheetsDb sample_world) ∧
    length row = 10 ∧
    row !! 0 = Some (uuid sample_env) ∧
    row !! (10 - 2) = Some (isoNow sample_env) ∧
    row !! (10 - 1) = Some (isoNow sample_env) ∧
    length (issued sample_world w') = 1.
Proof.
  apply (create_appends_identified_row sample_env _ _ "Students" 10 _ "studentId"
           sample_world sample_students
           ltac:(do 2 apply list_elem_of_further; apply list_elem_of_here)).
  - apply present_intro. vm_compute. reflexivity.
  - reflexivity.
  - reflexivity.
Defined.

Lemma first_match_snoc (g : grid) row id :
  no_match g id → row !! 0 = Some id → first_match (g ++ [row]) id (length g).
Proof.
  intros Hno Hrow. split.
  - exists row. split; [|done]. by rewrite lookup_app_r, Nat.sub_diag by lia.
  - intros k r Hk Hr. rewrite lookup_app_l in Hr by done.
    apply Hno. by eapply list_elem_of_lookup_2.
Qed.

Lemma no_match_rstrip (g : grid) id :
  no_match g id → no_match (rstrip is_blank_row g) id.
Proof.
  intros Hno r [k Hk]%list_elem_of_lookup_1. apply Hno.
  apply rstrip_lookup_Some in Hk. by eapply list_elem_of_lookup_2.
Qed.

(** X2.  Create, then look the new identifier up: when the identifier is
    not yet in column A (and is not empty) and both calls are served, the
    lookup finds the row just appended, right under the rows that held
    data. *)
Theorem created_row_is_found e body h tab width required idkey w (g : grid) :
  (h, tab, width, required, idkey) ∈ create_routes e body →
  present body required →
  calm 2 w →
  sheetsDb w !! (ENTITY_SPREADSHEET_ID, tab) = Some g →
  uuid e ≠ "" →
  no_match g (uuid e) →
  (Departments.findRowIndexById tab (uuid e) (h w).2).1
  = Ok (Z.of_nat (length (rstrip is_blank_row g)) + 1)%Z.
Proof.
  intros Hin Hp Hc Hg Hid Hno.
  destruct (create_run e body h tab width required idkey 1 w g Hin Hp Hc Hg)
    as (msg & data & row & vals & -> & _ & _ & H0 & _).
  cbn [snd].
  rewrite (findRowIndexById_found tab (uuid e) 0 _
             (rstrip is_blank_row g ++ [row]) (length (rstrip is_blank_row g)));
    [done| |by cbn [sheetsDb with_sheets]; rewrite lookup_insert_eq|done|].
  - apply (calm_after 1 1 w); [done|]. cbn [faults with_sheets tick].
    by destruct (faults w).
  - apply first_match_snoc; [by apply no_match_rstrip|done].
Qed.

Lemma created_row_is_found_witness :
  (Departments.findRowIndexById "Departments" (uuid sample_env)
     (Departments.post_create sample_env
        {[ "departmentName" := Str "Chemistry"; "location" := Str "Block C" ]}
        sample_world).2).1
  = Ok 4%Z.
Proof.
  apply (created_row_is_found sample_env _ _ "Departments" 7 _ "departmentId"
           sample_world sample_departments ltac:(apply list_elem_of_here)).
  - apply present_intro. vm_compute. reflexivity.
  - reflexivity.
  - reflexivity.
  - done.
  - intros row Hrow. unfold sample_departments in Hrow. set_unfold in Hrow.
    destruct Hrow as [->|[->|[->|[]]]]; done.
Defined.

(** ** A rejected append *)

(** X3.  On the routes whose only remote call is an append, a rejected
    append is answered 500 with the plain text [Server Error], and no
    spreadsheet changes. *)
Theorem rejected_append_is_server_error e body h ssid tab required fs w :
  (h, ssid, tab, required) ∈ append_only_routes e body →
  present body required →
  faults w = true :: fs →
  ∃ w', h w = (Ok (Response 500 (Text "Server Error")), w') ∧
        sheetsDb w' = sheetsDb w ∧ driveDb w' = driveDb w.
Proof.
  intros Hin Hp Hf. unfold append_only_routes in Hin. set_unfold in Hin.
  destruct Hin as [?|[?|[?|[?|[?|[?|[?|[]]]]]]]]; simplify_eq;
    [ unfold Departments.post_create | unfold Employees.post_create
    | unfold Students.post_create | unfold BusLog.post_create_trip
    | unfold GeneratorLog.post_create_log | unfold FileLog.post_forward
    | unfold FileLog.post_receive ];
    unfold try_catch, bind, values_append; settle_fields;
    rewrite (remote_fault _ _ fs) by done; by eexists.
Qed.

Lemma rejected_append_is_server_error_witness :
  ∃ w', FileLog.post_forward later_env forward_request drive_down_world
        = (Ok (Response 500 (Text "Server Error")), w') ∧
        sheetsDb w' = sheetsDb drive_down_world ∧
        driveDb w' = driveDb drive_down_world.
Proof.
  apply (rejected_append_is_server_error later_env forward_request _ _ _ _ []
           drive_down_world
           ltac:(do 5 apply list_elem_of_further; apply list_elem_of_here)).
  - apply present_intro. vm_compute. reflexivity.
  - reflexivity.
Defined.

(** ** The merge update, end to end *)

(** X4.  The update keeps the key where it was, provided the service keeps
    the key as typed: in any state whose cells are those the calls of a
    served update of the record in row [i] leave, looking the same key up
    again finds row [i], whatever the service makes of the other texts of
    the row. *)
Theorem updated_row_is_found_again entered update tab fields e id body w
    (g : grid) i w2 :
  (update, tab, fields) ∈ entity_tables →
  calm 3 w →
  sheetsDb w !! (ENTITY_SPREADSHEET_ID, tab) = Some g →
  id ≠ "" →
  first_match g id i →
  kept_as_typed entered id →
  sheetsDb w2 = cells_after entered (issued w (update e id body w).2) (sheetsDb w) →
  calm 1 w2 →
  (Departments.findRowIndexById tab id w2).1 = Ok (Z.of_nat i + 1)%Z.
Proof.
  intros Hin Hc Hg Hid Hm Hkept Hw2 Hc2.
  destruct (cells_after_update entered update tab fields e id body w g i)
    as (row & Hrow & Hcell & Hdb); [done..|].
  rewrite Hdb in Hw2.
  assert (sheetsDb w2 !! (ENTITY_SPREADSHEET_ID, tab) = Some _) as Hg'
    by (by rewrite Hw2, lookup_insert_eq).
  rewrite (findRowIndexById_found tab id 0 w2 _ i Hc2 Hg' Hid); [done|].
  destruct Hm as [_ Hbefore]. split.
  - eexists. split; [by rewrite list_lookup_alter_eq, Hrow|].
    simpl. by rewrite Hkept.
  - intros k r' Hk Hr'. rewrite list_lookup_alter_ne in Hr' by lia.
    by apply (Hbefore k r').
Qed.

Lemma updated_row_is_found_again_witness :
  (Departments.findRowIndexById "Students" "s2"
     (World
        (cells_after numerals_as_numbers
           (issued sample_world
              (Students.post_update sample_env "s2"
                 {[ "course" := Str "BA"; "yearOfStudy" := Str "02" ]}
                 sample_world).2)
           (sheetsDb sample_world))
        [] [] [])).1
  = Ok 3%Z.
Proof.
  apply (updated_row_is_found_again numerals_as_numbers Students.post_update
           "Students" _ sample_env "s2"
           {[ "course" := Str "BA"; "yearOfStudy" := Str "02" ]} sample_world
           sample_students 2 _
           ltac:(do 2 apply list_elem_of_further; apply list_elem_of_here)
           eq_refl eq_refl ltac:(done)).
  - split.
    + eexists. split; reflexivity.
    + intros k row Hk Hrow.
      destruct k as [|[|k]]; [| |lia]; vm_compute in Hrow; by simplify_eq.
  - reflexivity.
  - reflexivity.
  - reflexivity.
Defined.

(** X5.  The update writes all or nothing: when the key is found but one of
    the handler's three remote calls is rejected, the answer is 500 with the
    plain text [Server Error] and no spreadsheet changes. *)
Theorem interrupted_update_writes_nothing update tab fields e id body w
    (g : grid) i :
  (update, tab, fields) ∈ entity_tables →
  sheetsDb w !! (ENTITY_SPREADSHEET_ID, tab) = Some g →
  id ≠ "" →
  first_match g id i →
  ¬ calm 3 w →
  (update e id body w).1 = Ok (Response 500 (Text "Server Error")) ∧
  sheetsDb (update e id body w).2 = sheetsDb w.
Proof.
  intros Hin Hg Hid Hm Hnc. pose proof Hm as [(row & Hrow & Hcell) _].
  assert (∃ k fs, k < 3 ∧ faults w = replicate k false ++ true :: fs)
    as (k & fs & Hk & Hf).
  { unfold calm in Hnc. destruct (faults w) as [|[] [|[] [|[] fs]]];
      first [ exfalso; by apply Hnc
            | by exists 0; eexists; split; [lia|]
            | by exists 1; eexists; split; [lia|]
            | by exists 2; eexists; split; [lia|] ]. }
  unfold entity_tables in Hin. set_unfold in Hin.
  destruct Hin as [?|[?|[?|[]]]]; simplify_eq;
    [ unfold Departments.post_update | unfold Employees.post_update
    | unfold Students.post_update ];
    unfold try_catch, bind;
    change Employees.findRowIndexById with Departments.findRowIndexById;
    change Students.findRowIndexById with Departments.findRowIndexById;
    (destruct k as [|[|[|k]]]; [| | |lia]; cbn [replicate app] in Hf;
     [ rewrite (findRowIndexById_fault _ _ fs) by done; done
     | rewrite (findRowIndexById_found _ _ 0 w g i)
         by (done || (unfold calm; by rewrite Hf));
       case_decide; [lia|];
       unfold values_get;
       rewrite (remote_fault _ _ fs) by (cbn [faults tick]; by rewrite Hf);
       done
     | rewrite (findRowIndexById_found _ _ 1 w g i)
         by (done || (unfold calm; by rewrite Hf));
       case_decide; [lia|];
       rewrite (values_get_row _ _ _ _ 0 _ g)
         by (done || lia || (unfold calm; cbn [faults tick]; by rewrite Hf));
       replace (Z.to_nat (Z.of_nat i + 1) - 1) with i by lia;
       match goal with
       | |- context [values_of ?width (take 1 (drop i g))] =>
           rewrite (values_of_found_row width g i row id) by (done || lia)
       end;
       cbn [values_0 ret]; unfold values_update;
       rewrite (remote_fault _ _ fs) by (cbn [faults tick]; by rewrite Hf);
       done ]).
Qed.

Lemma interrupted_update_writes_nothing_witness :
  (Departments.post_update sample_env "d1" {[ "location" := Str "Block D" ]}
     (World (sheetsDb sample_world) [] [false; false; true] [])).1
  = Ok (Response 500 (Text "Server Error")) ∧
  sheetsDb (Departments.post_update sample_env "d1"
              {[ "location" := Str "Block D" ]}
              (World (sheetsDb sample_world) [] [false; false; true] [])).2
  = sheetsDb sample_world.
Proof.
  apply (interrupted_update_writes_nothing Departments.post_update "Departments"
           _ sample_env "d1" {[ "location" := Str "Block D" ]}
           (World (sheetsDb sample_world) [] [false; false; true] [])
           sample_departments 1 ltac:(apply list_elem_of_here) eq_refl
           ltac:(done)).
  - split.
    + eexists. split; reflexivity.
    + intros k row Hk Hrow.
      destruct k as [|k]; [|lia]. vm_compute in Hrow. by simplify_eq.
  - unfold calm. simpl. discriminate.
Defined.

(** ** Listing a tab *)

(** X6.  The list of a whole tab has one record per data row, in row order,
    and a record holds, under each name of the header row, the cell of its
    row in the last column of that name; a name the header lacks is absent.
    A cell the row lacks reads [undefined] in the department and employee
    lists and [''] in the student list. *)
Theorem list_zips_rows_with_header list tab width fill w (g : grid) hdr rest :
  (list, tab, width, fill) ∈ list_all_routes →
  calm 1 w →
  sheetsDb w !! (ENTITY_SPREADSHEET_ID, tab) = Some g →
  values_of width g = Some (hdr :: rest) →
  rest ≠ [] →
  ∃ msg records w',
    list w = (Ok (Response 200 (Json msg (Some (Objs records)))), w') ∧
    length records = length rest ∧
    ∀ k row name,
      rest !! k = Some row → name ≠ "__proto__" →
      ∃ record, records !! k = Some record ∧
                record !! name
                = (λ j, fill (cell row j)) <$> last_index hdr name.
Proof.
  intros Hin Hc Hg Hv Hrest. unfold list_all_routes in Hin. set_unfold in Hin.
  assert (no_data_rows (Some (hdr :: rest)) = false) as Hnd.
  { unfold no_data_rows. apply bool_decide_eq_false_2.
    destruct rest; [done|simpl; lia]. }
  destruct Hin as [?|[?|[?|[]]]]; simplify_eq;
    [ unfold Departments.get_list | unfold Employees.get_list
    | unfold Students.get_list ];
    unfold try_catch, bind;
    rewrite (values_get_columns _ _ _ 0 w g), Hv, Hnd by done;
    change (default [] (Some (hdr :: rest))) with (hdr :: rest);
    change (default [] ((hdr :: rest) !! 0)) with hdr;
    change (drop 1 (hdr :: rest)) with rest;
    do 3 eexists; (split; [reflexivity|]); (split; [by rewrite length_map|]);
    intros k row name Hk Hname; rewrite list_lookup_fmap, Hk;
    eexists; (split; [reflexivity|]).
  - by rewrite (forEach_lookup (λ index, cell row index)).
  - by rewrite (forEach_lookup (λ index, cell row index)).
  - by rewrite (forEach_lookup (λ index, cell row index ||| Str "")).
Qed.

Lemma list_zips_rows_with_header_witness :
  ∃ msg records w',
    Departments.get_list sample_world
    = (Ok (Response 200 (Json msg (Some (Objs records)))), w') ∧
    length records = 2 ∧
    ∀ k row name,
      drop 1 sample_departments !! k = Some row → name ≠ "__proto__" →
      ∃ record, records !! k = Some record ∧
                record !! name
                = (λ j, cell row j) <$> last_index departments_header name.
Proof.
  apply (list_zips_rows_with_header Departments.get_list "Departments" 7
           (λ v, v) sample_world sample_departments departments_header
           (drop 1 sample_departments)
           ltac:(apply list_elem_of_here) eq_refl eq_refl).
  - vm_compute. reflexivity.
  - discriminate.
Defined.

(** ** The upload helper *)

Lemma upload_to_world parent f w :
  calm 2 w →
  ∃ data w',
    upload_to parent f w = (Ok (Some data), w') ∧
    sheetsDb w' = sheetsDb w ∧
    faults w' = drop 2 (faults w) ∧
    trace w' = trace w
               ++ [DriveFilesCreate parent (originalname f) (mimetype f);
                   DrivePermissionsCreate (data_id data)] ∧
    length (driveDb w') = S (length (driveDb w)) ∧
    last (driveDb w')
    = Some (DriveFile (data_id data) (originalname f) (mimetype f) parent
              (file_buffer f) true).
Proof.
  unfold upload_to, try_catch, bind, drive_files_create, drive_permissions_create,
    remote, calm.
  destruct (faults w) as [|[] [|[] fs]] eqn:E; cbn; rewrite ?E; cbn;
    intros H; try done; do 2 eexists;
    (split; [reflexivity|]); cbn; rewrite ?E, <- ?app_assoc;
    (split; [done|]); (split; [done|]); (split; [done|]);
    rewrite map_app; cbn [map]; rewrite length_app, length_map, last_snoc;
    cbn [df_id length]; rewrite decide_True by done; (split; [lia|done]).
Qed.

(** X7.  A served upload creates one object in the module's folder, with the
    name, type and bytes of the file, publishes it, and returns the id of
    that very object; it issues the two Drive calls and touches no
    spreadsheet. *)
Theorem upload_creates_public_object upload folder f w :
  (upload, folder) ∈ upload_helpers →
  calm 2 w →
  ∃ data w',
    upload f w = (Ok (Some data), w') ∧
    length (driveDb w') = S (length (driveDb w)) ∧
    last (driveDb w')
    = Some (DriveFile (data_id data) (originalname f) (mimetype f) folder
              (file_buffer f) true) ∧
    sheetsDb w' = sheetsDb w ∧
    issued w w' = [DriveFilesCreate folder (originalname f) (mimetype f);
                   DrivePermissionsCreate (data_id data)].
Proof.
  intros Hin Hc.
  assert (upload = upload_to folder) as ->.
  { unfold upload_helpers in Hin. set_unfold in Hin.
    destruct Hin as [?|[?|[?|[]]]]; by simplify_eq. }
  destruct (upload_to_world folder f w Hc)
    as (data & w' & Hrun & Hs & _ & Ht & Hlen & Hlast).
  exists data, w'. repeat (split; [done|]). by apply issued_ticks.
Qed.

Lemma upload_creates_public_object_witness :
  ∃ data w',
    BusLog.uploadToGoogleDrive sample_photo sample_world = (Ok (Some data), w') ∧
    length (driveDb w') = S (length (driveDb sample_world)) ∧
    last (driveDb w')
    = Some (DriveFile (data_id data) "dashboard.jpg" "image/jpeg"
              BusLog.DRIVE_FOLDER_ID (Bytes "JPEG") true) ∧
    sheetsDb w' = sheetsDb sample_world ∧
    issued sample_world w'
    = [DriveFilesCreate BusLog.DRIVE_FOLDER_ID "dashboard.jpg" "image/jpeg";
       DrivePermissionsCreate (data_id data)].
Proof.
  apply (upload_creates_public_object BusLog.uploadToGoogleDrive _ sample_photo
           sample_world ltac:(apply list_elem_of_here) eq_refl).
Defined.

(** X8.  When Drive creates the object but rejects the permission call, the
    helper reports failure and cleans nothing up: the new object stays in
    the folder, unpublished, and no third call is made. *)
Theorem failed_permission_leaves_private_object upload folder f fs w :
  (upload, folder) ∈ upload_helpers →
  faults w = false :: true :: fs →
  ∃ fid w',
    upload f w = (Ok None, w') ∧
    driveDb w'
    = driveDb w
      ++ [DriveFile fid (originalname f) (mimetype f) folder (file_buffer f) false] ∧
    sheetsDb w' = sheetsDb w ∧
    issued w w' = [DriveFilesCreate folder (originalname f) (mimetype f);
                   DrivePermissionsCreate fid].
Proof.
  intros Hin Hf.
  assert (upload = upload_to folder) as ->.
  { unfold upload_helpers in Hin. set_unfold in Hin.
    destruct Hin as [?|[?|[?|[]]]]; by simplify_eq. }
  unfold upload_to, try_catch, bind, drive_files_create, drive_permissions_create,
    remote, issued.
  rewrite Hf. cbn. rewrite Hf. cbn. do 2 eexists.
  split; [reflexivity|]. cbn. split; [done|]. split; [done|].
  by rewrite <- app_assoc, drop_app_length.
Qed.

Lemma failed_permission_leaves_private_object_witness :
  ∃ fid w',
    FileLog.uploadToGoogleDrive sample_photo
      (World (sheetsDb sample_world) [] [false; true] []) = (Ok None, w') ∧
    driveDb w'
    = [] ++ [DriveFile fid "dashboard.jpg" "image/jpeg" FileLog.DRIVE_FOLDER_ID
               (Bytes "JPEG") false] ∧
    sheetsDb w' = sheetsDb sample_world ∧
    issued (World (sheetsDb sample_world) [] [false; true] []) w'
    = [DriveFilesCreate FileLog.DRIVE_FOLDER_ID "dashboard.jpg" "image/jpeg";
       DrivePermissionsCreate fid].
Proof.
  apply (failed_permission_leaves_private_object FileLog.uploadToGoogleDrive _
           sample_photo [] (World (sheetsDb sample_world) [] [false; true] [])
           ltac:(do 2 apply list_elem_of_further; apply list_elem_of_here)
           eq_refl).
Defined.

(** ** Upload, then append *)

Ltac as_upload_to :=
  change BusLog.uploadToGoogleDrive with (upload_to BusLog.DRIVE_FOLDER_ID);
  change GeneratorLog.uploadToGoogleDrive
    with (upload_to GeneratorLog.DRIVE_FOLDER_ID);
  change FileLog.uploadToGoogleDrive with (upload_to FileLog.DRIVE_FOLDER_ID).

(** X9.  Upload and append are not one transaction: when the upload is
    served and the append that follows is rejected, the answer is 500 with
    the plain text [Server Error], no spreadsheet changes, and the uploaded
    object stays in Drive, published. *)
Theorem failed_append_keeps_uploaded_object e body file h upload required fs w :
  (h, upload, required) ∈ upload_routes e body file →
  present body required →
  faults w = false :: false :: true :: fs →
  ∃ obj w',
    h w = (Ok (Response 500 (Text "Server Error")), w') ∧
    sheetsDb w' = sheetsDb w ∧
    length (driveDb w') = S (length (driveDb w)) ∧
    last (driveDb w') = Some obj ∧
    df_public obj = true.
Proof.
  intros Hin Hp Hf.
  assert (calm 2 w) as Hc by (unfold calm; by rewrite Hf).
  unfold upload_routes in Hin. set_unfold in Hin.
  destruct Hin as [?|[?|[?|[?|[?|[]]]]]]; simplify_eq;
    [ unfold BusLog.post_start_trip | unfold BusLog.post_end_trip
    | unfold GeneratorLog.post_start_run | unfold GeneratorLog.post_end_run
    | unfold FileLog.post_register ];
    unfold try_catch, bind; settle_fields; as_upload_to;
    match goal with
    | |- context [upload_to ?p ?f w] =>
        destruct (upload_to_world p f w Hc)
          as (data & wu & -> & Hs & Hfl & _ & Hlen & Hlast)
    end;
    unfold values_append;
    rewrite (remote_fault _ _ fs) by (by rewrite Hfl, Hf);
    do 2 eexists; (split; [reflexivity|]);
    cbn [sheetsDb driveDb tick]; by rewrite Hs, Hlen, Hlast.
Qed.

Lemma failed_append_keeps_uploaded_object_witness :
  ∃ obj w',
    BusLog.post_start_trip sample_env
      {[ "tripId" := Str "T-1"; "startingKm" := Str "1200" ]}
      (Some sample_photo)
      (World (sheetsDb sample_world) [] [false; false; true] [])
    = (Ok (Response 500 (Text "Server Error")), w') ∧
    sheetsDb w' = sheetsDb sample_world ∧
    length (driveDb w') = 1 ∧
    last (driveDb w') = Some obj ∧
    df_public obj = true.
Proof.
  apply (failed_append_keeps_uploaded_object sample_env
           {[ "tripId" := Str "T-1"; "startingKm" := Str "1200" ]}
           sample_photo _ _ _ []
           (World (sheetsDb sample_world) [] [false; false; true] [])
           ltac:(apply list_elem_of_here)).
  - apply present_intro. vm_compute. reflexivity.
  - reflexivity.
Defined.

(** X10.  The two appends of a registration are not one transaction either:
    when the Files row is written and the Movements append is rejected, the
    answer is 500, the Files tab has the new row and every other tab,
    Movements included, is as before. *)
Theorem interrupted_register_keeps_files_row e body fs w (files : grid) :
  present body ["fileName"; "originatingDepartment"; "createdBy"] →
  faults w = false :: false :: false :: true :: fs →
  sheetsDb w !! (FileLog.SPREADSHEET_ID, "Files") = Some files →
  ∃ row w',
    FileLog.post_register e body w
    = (Ok (Response 500 (Text "Server Error")), w') ∧
    sheetsDb w'
    = <[(FileLog.SPREADSHEET_ID, "Files") := rstrip is_blank_row files ++ [row]]>
        (sheetsDb w) ∧
    row !! 0 = Some (uuid e).
Proof.
  intros Hp Hf Hfiles.
  assert (calm 3 w) as Hc by (unfold calm; by rewrite Hf).
  unfold FileLog.post_register, try_catch, bind. settle_fields. as_upload_to.
  match goal with
  | |- context [upload_to ?p ?f w] =>
      destruct (upload_to_world p f w ltac:(by apply (calm_weaken 3); [lia|]))
        as (data & wu & -> & Hs & Hfl & _)
  end.
  rewrite (values_append_run _ _ _ _ 0 wu files)
    by (by rewrite ?Hs; try apply (calm_after 2 1 w)).
  unfold values_append.
  rewrite (remote_fault _ _ fs)
    by (cbn [faults with_sheets tick]; by rewrite Hfl, Hf).
  do 2 eexists. split; [reflexivity|].
  cbn [sheetsDb with_sheets tick]. rewrite Hs, write_cells_nil. done.
Qed.

Lemma interrupted_register_keeps_files_row_witness :
  ∃ row w',
    FileLog.post_register sample_env register_request
      (World (sheetsDb sample_world) [] [false; false; false; true] [])
    = (Ok (Response 500 (Text "Server Error")), w') ∧
    sheetsDb w'
    = <[(FileLog.SPREADSHEET_ID, "Files") :=
          rstrip is_blank_row [files_header] ++ [row]]> (sheetsDb sample_world) ∧
    row !! 0 = Some (uuid sample_env).
Proof.
  apply (interrupted_register_keeps_files_row sample_env register_request []
           (World (sheetsDb sample_world) [] [false; false; false; true] [])
           [files_header]).
  - apply present_intro. vm_compute. reflexivity.
  - reflexivity.
  - reflexivity.
Defined.





(** ** What every route answers *)

(** Take a handler apart along the outcomes of its remote calls and the
    tests it makes. *)
Ltac crack :=
  repeat (cbv beta;
          match goal with
          | |- context [match ?x with _ => _ end] =>
              lazymatch x with
              | context [match _ with _ => _ end] => fail
              | _ => idtac
              end;
              match type of x with
              | (outcome _ * world)%type => destruct x as [[?|?] ?]
              | outcome _ => destruct x
              | option _ => destruct x
              | sumbool _ _ => destruct x
              | bool => destruct x
              end
          end).

(** X13.  No route lets an exception escape, and each answers with one of
    its own statuses in every world, whatever the spreadsheets hold and
    whichever remote calls fail: 201 or 200 on success, 400 and 404 where
    the route validates or looks a key up, and 500 otherwise. *)
Theorem routes_answer_with_their_statuses e id body file h codes w :
  (h, codes) ∈ all_routes e id body file →
  ∃ r w', h w = (Ok r, w') ∧ status r ∈ codes.
Proof.
  intros Hin. unfold all_routes in Hin. set_unfold in Hin.
  destruct Hin as [?|[?|[?|[?|[?|[?|[?|[?|[?|[?|[?|[?|[?|[?|[?|[?|[?|[?|[?|[?|[]]]]]]]]]]]]]]]]]]]]];
    simplify_eq;
    [ unfold Departments.post_create
    | unfold Departments.post_update
    | unfold Departments.get_list
    | unfold Employees.post_create
    | unfold Employees.post_update
    | unfold Employees.get_list
    | unfold Students.post_create
    | unfold Students.post_update
    | unfold Students.get_list
    | unfold Students.get_list_by_department
    | unfold GeneratorLog.post_start_run
    | unfold GeneratorLog.post_end_run
    | unfold GeneratorLog.post_create_log
    | unfold FileLog.post_register
    | unfold FileLog.post_forward
    | unfold FileLog.post_receive
    | unfold FileLog.get_status
    | unfold BusLog.post_start_trip
    | unfold BusLog.post_end_trip
    | unfold BusLog.post_create_trip ];
    unfold try_catch, bind, server_error, ret, throw; crack;
    do 2 eexists; (split; [reflexivity|]); simpl; set_solver.
Qed.

Lemma routes_answer_with_their_statuses_witness :
  ∃ r w', FileLog.get_status "f-404" sample_world = (Ok r, w') ∧
          status r ∈ [200; 404; 500].
Proof.
  apply (routes_answer_with_their_statuses sample_env "f-404" ∅ None).
  unfold all_routes. do 16 apply list_elem_of_further. apply list_elem_of_here.
Defined.

(** X14.  The validating routes answer 400 for nothing but a missing field
    or attachment: with the required fields present, and the attachment
    where one is required, the status is never 400, in any world. *)
Theorem complete_request_is_not_rejected e body file h required needs_file w :
  (h, required, needs_file) ∈ validated_routes e body file →
  present body required →
  (needs_file = true → file ≠ None) →
  ∃ r w', h w = (Ok r, w') ∧ status r ≠ 400.
Proof.
  intros Hin Hp Hfile. unfold validated_routes in Hin. set_unfold in Hin.
  destruct Hin as [?|[?|[?|[?|[?|[?|[?|[?|[?|[?|[?|[?|[]]]]]]]]]]]]];
    simplify_eq;
    [ unfold BusLog.post_start_trip | unfold BusLog.post_end_trip
    | unfold BusLog.post_create_trip | unfold GeneratorLog.post_start_run
    | unfold GeneratorLog.post_end_run | unfold GeneratorLog.post_create_log
    | unfold FileLog.post_register | unfold FileLog.post_forward
    | unfold FileLog.post_receive | unfold Departments.post_create
    | unfold Employees.post_create | unfold Students.post_create ];
    unfold try_catch, bind, server_error, ret, throw; settle_fields;
    try (destruct file as [photo|]; [|by destruct Hfile]);
    crack; do 2 eexists; (split; [reflexivity|]); done.
Qed.

Lemma complete_request_is_not_rejected_witness :
  ∃ r w',
    Students.post_create sample_env
      {[ "studentName" := Str "Kiran"; "rollNumber" := Str "R-04";
         "departmentId" := Str "d2"; "course" := Str "BSc";
         "yearOfStudy" := Num 1 ]} drive_down_world = (Ok r, w') ∧
    status r ≠ 400.
Proof.
  apply (complete_request_is_not_rejected sample_env _ None _ _ false
           drive_down_world
           ltac:(do 11 apply list_elem_of_further; apply list_elem_of_here)).
  - apply present_intro. vm_compute. reflexivity.
  - discriminate.
Defined.

(** ** The latest movement is the status *)

(** X15.  Forward or receive, then ask for the status, provided the service
    keeps the file id and the two action tags as typed: on a Movements tab
    whose header names [Action] as column C only, in any state whose cells
    are those the append leaves, the status is found (200, even for a file
    that was never registered) and [currentStatus] is the action just
    logged, whatever the tab held before and whatever the service makes of
    the other texts of the row. *)
Theorem status_follows_latest_movement entered e body h required row id w
    (g0 : grid) hdr0 w2 :
  (h, required, row) ∈ movement_routes e body →
  present body required →
  get_prop body "fileId" = Str id →
  calm 1 w →
  sheetsDb w !! (FileLog.SPREADSHEET_ID, "Movements") = Some g0 →
  g0 !! 0 = Some hdr0 →
  last_index (rstrip is_empty_cell (take 9 hdr0)) "Action" = Some 2 →
  kept_as_typed entered id →
  kept_as_typed entered "FORWARDED" →
  kept_as_typed entered "RECEIVED" →
  sheetsDb w2 = cells_after entered (issued w (h w).2) (sheetsDb w) →
  calm 1 w2 →
  ∃ details history w',
    FileLog.get_status id w2
    = (Ok (Response 200 (Json "File history retrieved successfully."
             (Some (Details details history)))), w') ∧
    history ≠ [] ∧
    details !! "currentStatus" = row !! 2 ∧
    (row !! 2 = Some (Str "FORWARDED") ∨ row !! 2 = Some (Str "RECEIVED")).
Proof.
  intros Hin Hp Hid Hc Hg0 Hh Haction Hkid Hkf Hkr Hw2 Hc2.
  destruct (movement_logged e body h required row 0 w g0 Hin Hp Hc Hg0)
    as (msg & w1 & Hrun & _ & _ & _ & Htr).
  rewrite Hrun in Hw2. cbn [snd] in Hw2.
  rewrite (issued_ticks _ _ _ Htr) in Hw2.
  unfold cells_after in Hw2. cbn [foldl served range_tab] in Hw2.
  rewrite Hg0, write_cells_nil in Hw2.
  assert (∃ a, row !! 1 = Some (Str id) ∧ row !! 2 = Some (Str a) ∧ a ≠ "" ∧
               kept_as_typed entered a ∧
               (a = "FORWARDED" ∨ a = "RECEIVED"))
    as (a & Hr1 & Hr2 & Ha & Hka & Hcases).
  { unfold movement_routes in Hin. set_unfold in Hin.
    destruct Hin as [?|[?|[]]]; simplify_eq; rewrite Hid;
      [exists "FORWARDED"|exists "RECEIVED"]; repeat split; auto. }
  set (f := λ r : list string, rstrip is_empty_cell (take 9 r)).
  set (R := map shown (map (typed entered) row)) in *.
  assert (R !! 1 = Some id) as HR1.
  { unfold R. rewrite !list_lookup_fmap, Hr1. simpl. by rewrite Hkid. }
  assert (R !! 2 = Some a) as HR2.
  { unfold R. rewrite !list_lookup_fmap, Hr2. simpl. by rewrite Hka. }
  assert (hdr0 !! 2 = Some "Action") as Hh2.
  { apply last_index_Some in Haction. by apply returned_row_lookup_Some in Haction. }
  assert (rstrip is_blank_row g0 !! 0 = Some hdr0) as HX.
  { rewrite (rstrip_lookup_before _ _ 0 hdr0 0); [done..| |lia].
    by apply (is_blank_row_false _ 2 "Action"). }
  destruct (rstrip is_blank_row g0) as [|h0 X'] eqn:EX; [done|]. simplify_eq/=.
  assert (f R !! 1 = Some id) as HfR1.
  { unfold f. by rewrite (returned_row_prefix _ _ 2 a 1) by (done || lia). }
  assert (is_blank_row (f R) = false) as HfRb.
  { apply (is_blank_row_false _ 2 a); [|done].
    unfold f. by rewrite (returned_row_prefix _ _ 2 a 2) by (done || lia). }
  assert (values_of 9 (hdr0 :: X' ++ [R]) = Some (f hdr0 :: map f X' ++ [f R]))
    as Hv.
  { unfold values_of. fold f. rewrite app_comm_cons, map_app. cbn [map].
    rewrite app_comm_cons, rstrip_snoc by done. done. }
  assert (sheetsDb w2 !! (FileLog.SPREADSHEET_ID, "Movements")
          = Some (hdr0 :: X' ++ [R])) as Hm2
    by (by rewrite Hw2, lookup_insert_eq).
  destruct (get_status_run id 0 w2 _ Hc2 Hm2) as [_ Hstatus].
  rewrite Hv in Hstatus.
  change (default [] (Some (?x :: ?l))) with (x :: l) in Hstatus.
  change (drop 1 (?x :: ?l)) with l in Hstatus.
  change (default [] ((?x :: ?l) !! 0)) with x in Hstatus.
  rewrite filter_app, filter_cons_True, filter_nil in Hstatus by done.
  rewrite last_snoc in Hstatus.
  destruct (Hstatus _ eq_refl) as (details & history & Hrun2 & Hall & Hcur & _).
  exists details, history. eexists. split; [exact Hrun2|]. split; [|split].
  - intros ->. apply Forall2_nil_inv_r in Hall. by destruct (filter _ _).
  - rewrite Hcur, Hr2. f_equal.
    apply (column_at (f hdr0) R "Action" 2 9 a Haction HR2 Ha). lia.
  - destruct Hcases as [->| ->]; [left|right]; done.
Qed.

Lemma status_follows_latest_movement_witness :
  ∃ details history w',
    FileLog.get_status (uuid sample_env)
      (World
         (cells_after numerals_as_numbers
            (issued sample_world
               (FileLog.post_forward later_env
                  (<["remarks" := Str "007"]> forward_request) sample_world).2)
            (sheetsDb sample_world))
         [] [] [])
    = (Ok (Response 200 (Json "File history retrieved successfully."
             (Some (Details details history)))), w') ∧
    history ≠ [] ∧
    details !! "currentStatus" = Some (Str "FORWARDED").
Proof.
  destruct (status_follows_latest_movement numerals_as_numbers later_env
              (<["remarks" := Str "007"]> forward_request) _ _ _
              (uuid sample_env) sample_world [movements_header] movements_header
              (World
                 (cells_after numerals_as_numbers
                    (issued sample_world
                       (FileLog.post_forward later_env
                          (<["remarks" := Str "007"]> forward_request)
                          sample_world).2)
                    (sheetsDb sample_world))
                 [] [] [])
              ltac:(apply list_elem_of_here))
    as (details & history & w' & Hrun & Hne & Hcur & _).
  - apply present_intro. vm_compute. reflexivity.
  - vm_compute. reflexivity.
  - reflexivity.
  - reflexivity.
  - reflexivity.
  - vm_compute. reflexivity.
  - vm_compute. reflexivity.
  - vm_compute. reflexivity.
  - vm_compute. reflexivity.
  - reflexivity.
  - reflexivity.
  - exists details, history, w'.
    split; [exact Hrun|]. split; [exact Hne|exact Hcur].
Defined.

(** ** Update, then list *)

Lemma filled_cell_text w (r : list string) c :
  c < w →
  cell (rstrip is_empty_cell (take w r)) c ||| Str "" = Str (row_text r c).
Proof.
  intros Hc. unfold cell, row_text, js_or.
  destruct (rstrip is_empty_cell (take w r) !! c) as [s|] eqn:E.
  - apply returned_row_lookup_Some in E. rewrite E. by destruct s.
  - simpl. destruct (r !! c) as [s|] eqn:Er; [|done].
    assert (take w r !! c = Some s) as Ht by (by apply lookup_take_Some).
    by rewrite (is_empty_cell_true s (rstrip_lookup_None _ _ _ _ E Ht)).
Qed.

(** The list of the students, over a tab that holds data rows. *)
Lemma students_list_run n w (g : grid) hdr rest :
  calm (S n) w →
  sheetsDb w !! (ENTITY_SPREADSHEET_ID, "Students") = Some g →
  values_of 10 g = Some (hdr :: rest) →
  rest ≠ [] →
  ∃ msg records w',
    Students.get_list w = (Ok (Response 200 (Json msg (Some (Objs records)))), w') ∧
    ∀ k row name,
      rest !! k = Some row → name ≠ "__proto__" →
      ∃ record, records !! k = Some record ∧
                record !! name
                = (λ j, cell row j ||| Str "") <$> last_index hdr name.
Proof.
  intros Hc Hg Hv Hrest.
  assert (no_data_rows (Some (hdr :: rest)) = false) as Hnd.
  { unfold no_data_rows. apply bool_decide_eq_false_2.
    destruct rest; [done|simpl; lia]. }
  unfold Students.get_list, try_catch, bind.
  rewrite (values_get_columns _ _ _ n w g), Hv, Hnd by done.
  change (default [] (Some (hdr :: rest))) with (hdr :: rest).
  change (default [] ((hdr :: rest) !! 0)) with hdr.
  change (drop 1 (hdr :: rest)) with rest.
  do 3 eexists. split; [reflexivity|].
  intros k row name Hk Hname. rewrite list_lookup_fmap, Hk.
  eexists. split; [reflexivity|].
  by rewrite (forEach_lookup (λ index, cell row index ||| Str "")).
Qed.

(** X16.  Update a student, then list the students, provided the service
    keeps as typed the key and the text the update writes into the column
    asked about: in any state whose cells are those the calls of the served
    update leave, the record found in row [i] under the header row is listed
    as record [i - 1], and under a header name that only column [S j]
    carries it shows the supplied value of the field that feeds that column
    if it is truthy, and the text the cell had before otherwise. *)
Theorem updated_student_is_listed entered e id body w (g : grid) i hdr0 name j
    field w2 :
  calm 3 w →
  sheetsDb w !! (ENTITY_SPREADSHEET_ID, "Students") = Some g →
  id ≠ "" →
  first_match g id i →
  0 < i →
  g !! 0 = Some hdr0 →
  last_index (rstrip is_empty_cell (take 10 hdr0)) name = Some (S j) →
  name ≠ "__proto__" →
  ["studentName"; "rollNumber"; "departmentId"; "course"; "yearOfStudy";
   "email"; "phone"] !! j = Some field →
  kept_as_typed entered id →
  kept_as_typed entered
    (merge_field (get_prop body field) (cell_text g i (S j))) →
  sheetsDb w2
  = cells_after entered (issued w (Students.post_update e id body w).2)
      (sheetsDb w) →
  calm 1 w2 →
  ∃ msg records record w',
    Students.get_list w2
    = (Ok (Response 200 (Json msg (Some (Objs records)))), w') ∧
    records !! (i - 1) = Some record ∧
    record !! name
    = Some (Str (merge_field (get_prop body field) (cell_text g i (S j)))).
Proof.
  intros Hc Hg Hid Hm Hi Hh Hname Hproto Hfield Hkid Hkm Hw2 Hc2.
  set (fields := ["studentName"; "rollNumber"; "departmentId"; "course";
                  "yearOfStudy"; "email"; "phone"]) in *.
  destruct (cells_after_update entered Students.post_update "Students" fields
              e id body w g i)
    as (row & Hrow & Hcell & Hdb); [unfold entity_tables; set_solver|done..|].
  rewrite Hdb in Hw2. clear Hdb.
  set (existing := rstrip is_empty_cell (take (length fields + 3) row)) in *.
  set (row' := write_cells
                 (map (typed entered) (updated_row fields e id body existing))
                 row).
  set (g' := alter _ i g) in Hw2.
  assert (g' !! i = Some row') as Hrow'
    by (unfold g'; by rewrite list_lookup_alter_eq, Hrow).
  assert (row' !! 0 = Some id) as Hcell' by (unfold row'; simpl; by rewrite Hkid).
  assert (g' !! 0 = Some hdr0) as Hh'
    by (unfold g'; rewrite list_lookup_alter_ne by lia; done).
  assert (cell_text g i (S j) = row_text row (S j)) as Hold
    by (unfold cell_text; by rewrite Hrow).
  assert (row_text row' (S j)
          = merge_field (get_prop body field) (cell_text g i (S j))) as Hmerged.
  { unfold row'. rewrite row_text_entered. unfold updated_row.
    rewrite lookup_cons_ne_0 by done. simpl Nat.pred.
    rewrite lookup_app_l by (rewrite length_imap; by eapply lookup_lt_Some).
    rewrite list_lookup_imap, Hfield. simpl.
    apply kept_cell; [|done]. rewrite Hold. apply merge_cell. }
  clearbody row' g'.
  destruct (returned_rows_before 10 g' i row' 0 id 0) as (rows & Hv & H0);
    [done|done|lia|done|lia|].
  destruct (returned_rows_before 10 g' i row' 0 id i) as (rows' & Hv' & Hi');
    [done|done|lia|done|lia|].
  assert (rows' = rows) as -> by congruence. clear Hv'.
  rewrite Hh' in H0. rewrite Hrow' in Hi'.
  destruct rows as [|hdr rest]; [done|]. simplify_eq/=.
  destruct i as [|i]; [lia|]. simpl in Hi'.
  replace (S i - 1) with i by lia.
  destruct (students_list_run 0 w2 g' _ rest Hc2
              ltac:(by rewrite Hw2, lookup_insert_eq) Hv ltac:(by intros ->))
    as (msg & records & w' & Hrun & Hrec).
  destruct (Hrec i _ name Hi' Hproto) as (record & Hk & Hval).
  exists msg, records, record, w'. split; [done|]. split; [done|].
  rewrite Hval, Hname. simpl.
  rewrite filled_cell_text
    by (apply lookup_lt_Some in Hfield; simpl in Hfield; lia).
  by rewrite <- Hmerged.
Qed.

Lemma updated_student_is_listed_witness :
  ∃ msg records record w',
    Students.get_list
      (World
         (cells_after numerals_as_numbers
            (issued sample_world
               (Students.post_update sample_env "s2"
                  {[ "course" := Str "BA"; "yearOfStudy" := Str "02" ]}
                  sample_world).2)
            (sheetsDb sample_world))
         [] [] [])
    = (Ok (Response 200 (Json msg (Some (Objs records)))), w') ∧
    records !! (2 - 1) = Some record ∧
    record !! "Course"
    = Some (Str (merge_field
                   (get_prop {[ "course" := Str "BA";
                                "yearOfStudy" := Str "02" ]} "course")
                   (cell_text sample_students 2 4))).
Proof.
  apply (updated_student_is_listed numerals_as_numbers sample_env "s2" _
           sample_world sample_students 2 students_header "Course" 3 "course" _
           eq_refl eq_refl ltac:(done)).
  - split.
    + eexists. split; reflexivity.
    + intros k row Hk Hrow.
      destruct k as [|[|k]]; [| |lia]; vm_compute in Hrow; by simplify_eq.
  - lia.
  - reflexivity.
  - vm_compute. reflexivity.
  - done.
  - reflexivity.
  - reflexivity.
  - vm_compute. reflexivity.
  - reflexivity.
  - reflexivity.
Defined.

(** ** The upload helper never throws *)

(** X17.  The upload helper catches every failure: it returns, with [null]
    exactly when Drive rejects the creation or the permission call, and it
    never touches a spreadsheet or issues a Sheets call. *)
Theorem upload_reports_failure_as_null upload folder f w :
  (upload, folder) ∈ upload_helpers →
  (∃ r, (upload f w).1 = Ok r) ∧
  ((upload f w).1 = Ok None ↔ ¬ calm 2 w) ∧
  sheetsDb (upload f w).2 = sheetsDb w ∧
  Forall (λ c, is_append c = false) (issued w (upload f w).2).
Proof.
  intros Hin.
  assert (upload = upload_to folder) as ->.
  { unfold upload_helpers in Hin. set_unfold in Hin.
    destruct Hin as [?|[?|[?|[]]]]; by simplify_eq. }
  destruct (upload_to_effects folder f w) as (Hok & Hdb & Hcalls).
  split; [done|]. split; [apply upload_to_fails|]. by split.
Qed.

Lemma upload_reports_failure_as_null_witness :
  (GeneratorLog.uploadToGoogleDrive sample_photo drive_down_world).1 = Ok None.
Proof.
  apply (proj1 (proj2 (upload_reports_failure_as_null
                         GeneratorLog.uploadToGoogleDrive _ sample_photo
                         drive_down_world
                         ltac:(apply list_elem_of_further;
                               apply list_elem_of_here)))).
  unfold calm. simpl. discriminate.
Defined.

(** ** The guard of the filtered list *)

(** X18.  The students of a department cannot be listed from a sheet whose
    header row lacks the [DepartmentID] column: with data rows present the
    answer is 500, with a JSON message, whatever the department asked
    for. *)
Theorem filtered_list_without_column_is_500 departmentId w (g : grid) hdr rest :
  calm 1 w →
  sheetsDb w !! (ENTITY_SPREADSHEET_ID, "Students") = Some g →
  values_of 10 g = Some (hdr :: rest) →
  rest ≠ [] →
  "DepartmentID" ∉ hdr →
  ∃ msg w',
    Students.get_list_by_department departmentId w
    = (Ok (Response 500 (Json msg None)), w') ∧
    sheetsDb w' = sheetsDb w.
Proof.
  intros Hc Hg Hv Hrest Hhdr.
  unfold Students.get_list_by_department, try_catch, bind.
  rewrite (values_get_columns _ _ _ 0 w g), Hv by done.
  unfold no_data_rows. rewrite bool_decide_eq_false_2
    by (destruct rest; [done|simpl; lia]).
  change (default [] (Some (hdr :: rest))) with (hdr :: rest).
  change (default [] ((hdr :: rest) !! 0)) with hdr.
  unfold indexOf. rewrite indexOf_from_missing by done.
  rewrite decide_True by done. by do 2 eexists.
Qed.

Lemma filtered_list_without_column_is_500_witness :
  ∃ msg w',
    Students.get_list_by_department "d1" headless_students_world
    = (Ok (Response 500 (Json msg None)), w') ∧
    sheetsDb w' = sheetsDb headless_students_world.
Proof.
  apply (filtered_list_without_column_is_500 "d1" headless_students_world
           [ ["StudentID"; "StudentName"]; ["s1"; "Asha"] ]
           ["StudentID"; "StudentName"] [ ["s1"; "Asha"] ] eq_refl eq_refl).
  - vm_compute. reflexivity.
  - discriminate.
  - intros Hin. set_unfold in Hin. destruct Hin as [?|[?|[]]]; discriminate.
Defined.
